(** * Simple tenant usage: a shallow embedding of
      nova/api/openstack/compute/plugins/v3/simple_tenant_usage.py

    The controller computes, for a reporting window, the billable hours of
    every instance and folds them into per-tenant totals.  The embedding
    follows the Python text function by function:

    - Python numbers are [pynum]: an [int] (as [Z]) or a [float].  The float
      arithmetic is an interface ([FloatOps]) with two instances: IEEE
      binary64 (the kernel's primitive floats, what CPython computes with)
      and exact rationals.  Structural theorems hold for every instance.
    - A naive [datetime.datetime] is its position on the time line, counted in
      microseconds; a [datetime.timedelta] is the normalised triple
      (days, seconds, microseconds) that Python builds from a difference.
    - Exceptions are values of [exn]; a function that can raise returns an
      [outcome].
    - The collaborators that live outside this file (time parsing, the query
      string parser, policy checks, the compute API, the flavor extraction and
      the clock) are the fields of one record, [collaborators].
    - The handlers are the bodies of [index] and [show]; the decorator
      [extensions.expected_errors], which turns an unexpected exception into
      a server error, wraps them from outside and is not part of the model.
      A flavor record is always true as a Python value (it is never an empty
      dict). *)

From Stdlib Require Import ZArith QArith Qround Floats Uint63 Lia.
From stdpp Require Import base option list gmap strings.

Local Open Scope Z_scope.

(** ** Python numbers *)

Module PyNum.

(** The float operations the controller uses.  [of_int] is Python's implicit
    [float(n)] (also used for the float literals [100000.0] and [3600.0],
    which are integers), [fdiv] is true division; the source only ever divides
    by those two non-zero literals. *)
Class FloatOps (F : Type) := {
  of_int : Z -> F;
  fadd : F -> F -> F;
  fmul : F -> F -> F;
  fdiv : F -> F -> F;
  fleb : F -> F -> bool;
}.

(** IEEE 754 binary64, round to nearest even: CPython's [float].  The
    conversion from an integer of any size is the correctly rounded one, as
    the specification of the floats defines it ([binary_normalize]); an
    integer beyond the range of the floats, for which Python raises
    [OverflowError], becomes an infinity. *)
Definition b64_of_int (n : Z) : PrimFloat.float :=
  SF2Prim (binary_normalize prec emax n 0 false).

#[export] Instance binary64 : FloatOps PrimFloat.float := {|
  of_int := b64_of_int;
  fadd := PrimFloat.add;
  fmul := PrimFloat.mul;
  fdiv := PrimFloat.div;
  fleb := PrimFloat.leb;
|}.

(** A binary64 value, read through its specification, is not negative: a
    zero of either sign, or a positive number or infinity, and no NaN. *)
Definition sf_nonneg (x : spec_float) : bool :=
  match x with
  | S754_zero _ => true
  | S754_infinity s | S754_finite s _ _ => negb s
  | S754_nan => false
  end.

(** Exact rational arithmetic: the real-number reading of the same formulas. *)
#[export] Instance exact : FloatOps Q := {|
  of_int := inject_Z;
  fadd := Qplus;
  fmul := Qmult;
  fdiv := Qdiv;
  fleb := Qle_bool;
|}.

(** The float literals the source divides by. *)
Definition is_divisor (n : Z) : Prop := n = 100000 \/ n = 3600.

(** The order facts about float arithmetic that sign reasoning needs: the
    conversion of a non-negative integer, the sum of two non-negative floats
    and the quotient of a non-negative float by one of the two divisors are
    non-negative.  Both instances satisfy them (proved below). *)
Class FloatOrder (F : Type) `{FloatOps F} : Prop := {
  of_int_nonneg : forall n, 0 <= n -> fleb (of_int 0) (of_int n) = true;
  fadd_nonneg : forall x y,
    fleb (of_int 0) x = true -> fleb (of_int 0) y = true ->
    fleb (of_int 0) (fadd x y) = true;
  fdiv_nonneg : forall x n,
    fleb (of_int 0) x = true -> is_divisor n ->
    fleb (of_int 0) (fdiv x (of_int n)) = true;
}.

(** A Python number: [int] or [float]. *)
Inductive pynum (F : Type) : Type :=
  | PInt (n : Z)
  | PFloat (x : F).
Arguments PInt {F} n.
Arguments PFloat {F} x.

Section Arith.
Context {F : Type} `{FloatOps F}.

(** [float(v)] *)
Definition to_float (v : pynum F) : F :=
  match v with PInt n => of_int n | PFloat x => x end.

(** [a + b] with Python's coercion: int + int stays int, else float. *)
Definition padd (a b : pynum F) : pynum F :=
  match a, b with
  | PInt m, PInt n => PInt (m + n)
  | _, _ => PFloat (fadd (to_float a) (to_float b))
  end.

(** [a * b] *)
Definition pmul (a b : pynum F) : pynum F :=
  match a, b with
  | PInt m, PInt n => PInt (m * n)
  | _, _ => PFloat (fmul (to_float a) (to_float b))
  end.

(** [0 <= v] *)
Definition nonneg (v : pynum F) : Prop :=
  match v with
  | PInt n => 0 <= n
  | PFloat x => fleb (of_int 0) x = true
  end.
End Arith.

End PyNum.
Export PyNum.

(** ** Time *)

Module Datetime.

(** A naive [datetime.datetime], as microseconds on the time line. *)
Definition datetime := Z.

(** [datetime.timedelta]: [0 <= seconds < 86400], [0 <= microseconds < 10^6],
    [days] carries the sign. *)
Record timedelta := {
  days : Z;
  seconds : Z;
  microseconds : Z;
}.

Definition us_per_second : Z := 1000000.
Definition us_per_day : Z := 86400 * us_per_second.

(** [a - b] on datetimes: the difference, normalised by floor division as
    the [timedelta] constructor does. *)
Definition dt_sub (a b : datetime) : timedelta :=
  let us := a - b in
  {| days := us / us_per_day;
     seconds := (us mod us_per_day) / us_per_second;
     microseconds := us mod us_per_second |}.

(** A time of day on a day counted from the epoch, for readable examples. *)
Definition at_time (day hh mm ss us : Z) : datetime :=
  (((day * 24 + hh) * 60 + mm) * 60 + ss) * us_per_second + us.

End Datetime.
Export Datetime.

(** ** Exceptions *)

Inductive bad_request : Type :=
  | StartInvalidFormat   (* "Start time is invalid format, valid formats are ..." *)
  | StopInvalidFormat    (* "Stop time is invalid format, valid formats are ..." *)
  | StartAfterEnd.       (* "Invalid start time. The start time cannot occur after the end time." *)

Inductive exn : Type :=
  | KeyError
  | TypeError
  | ValueError
  | IndexError
  | Forbidden
  | HTTPBadRequest (explanation : bad_request).

Inductive outcome (A : Type) : Type :=
  | Returns (a : A)
  | Raises (e : exn).
Arguments Returns {A} a.
Arguments Raises {A} e.

#[export] Instance outcome_ret : MRet outcome := fun _ a => Returns a.
#[export] Instance outcome_bind : MBind outcome := fun _ _ f m =>
  match m with Returns a => f a | Raises e => Raises e end.

(** ** Records *)

(** A timestamp field of an instance record or a query value: [None], a
    [datetime], or text still to be parsed. *)
Inductive pyts : Type :=
  | TNone
  | TDatetime (t : datetime)
  | TStr (s : string).

(** Python truth value of such a field: [None] and [''] are false. *)
Definition truthy (v : pyts) : bool :=
  match v with
  | TNone => false
  | TDatetime _ => true
  | TStr s => negb (String.eqb s EmptyString)
  end.

(** The keys of an instance record that the controller reads. *)
Record instance := {
  uuid : string;
  display_name : string;
  project_id : string;
  launched_at : pyts;
  terminated_at : pyts;
  vm_state : string;
  instance_type_id : Z;
  deleted : bool;
}.

Module Flavor.
Record t := {
  name : string;
  memory_mb : Z;
  root_gb : Z;
  ephemeral_gb : Z;
  vcpus : Z;
}.
End Flavor.

(** The [info] dict built per instance (a ServerUsage entry). *)
Module Info.
Record t (F : Type) := {
  hours : pynum F;
  instance_id : string;
  name : string;
  memory_mb : Z;
  local_gb : Z;
  vcpus : Z;
  tenant_id : string;
  flavor : string;
  started_at : pyts;
  ended_at : pyts;
  state : string;
  uptime : Z;
}.
Arguments hours {F} _.
Arguments instance_id {F} _.
Arguments name {F} _.
Arguments memory_mb {F} _.
Arguments local_gb {F} _.
Arguments vcpus {F} _.
Arguments tenant_id {F} _.
Arguments flavor {F} _.
Arguments started_at {F} _.
Arguments ended_at {F} _.
Arguments state {F} _.
Arguments uptime {F} _.
End Info.

(** The [summary] dict kept per tenant.  The key [server_usages] exists only
    in detailed mode. *)
Module Summary.
Record t (F : Type) := {
  tenant_id : string;
  server_usages : option (list (Info.t F));
  total_local_gb_usage : pynum F;
  total_vcpus_usage : pynum F;
  total_memory_mb_usage : pynum F;
  total_hours : pynum F;
  start : datetime;
  stop : datetime;
}.
Arguments tenant_id {F} _.
Arguments server_usages {F} _.
Arguments total_local_gb_usage {F} _.
Arguments total_vcpus_usage {F} _.
Arguments total_memory_mb_usage {F} _.
Arguments total_hours {F} _.
Arguments start {F} _.
Arguments stop {F} _.
End Summary.

(** ** Collaborators *)

(** What the controller calls but does not define.  A lookup that raises is an
    [option]: [parse_strtime] raising [ValueError], [extract_flavor] raising
    [KeyError], [get_instance_type] raising [FlavorNotFound], and the policy
    checks raising [Forbidden] when they answer [false].  [utcnow_at n] is the
    value of the [n]-th call of [timeutils.utcnow()]. *)
Record collaborators := {
  context : Type;
  parse_strtime : string -> string -> option datetime;
  parse_qs : string -> gmap string (list string);
  utcnow_at : nat -> datetime;
  authorize_list : context -> bool;
  authorize_show : context -> string -> bool;
  get_active_by_window :
    context -> datetime -> datetime -> option string -> list instance;
  extract_flavor : instance -> option Flavor.t;
  get_instance_type : context -> Z -> option Flavor.t;
}.

Definition VALID_DATETIME_FORMAT : list string :=
  ["%Y-%m-%dT%H:%M:%S"; "%Y-%m-%dT%H:%M:%S.%f"; "%Y-%m-%d %H:%M:%S.%f"]%string.

(** ** The controller *)

Module SimpleTenantUsageController.

Section Controller.
Context {F : Type} `{FloatOps F}.
Variable C : collaborators.

(** Lines 41-49: a timestamp field that is not [None] and not a [datetime]
    is parsed with the fixed layout. *)
Definition as_datetime (v : pyts) : outcome (option datetime) :=
  match v with
  | TNone => Returns None
  | TDatetime t => Returns (Some t)
  | TStr s =>
      match parse_strtime C s "%Y-%m-%d %H:%M:%S.%f" with
      | Some t => Returns (Some t)
      | None => Raises ValueError
      end
  end.

(** The elapsed seconds of a [timedelta] as the source composes them. *)
Definition elapsed_seconds (dt : timedelta) : F :=
  fadd (of_int (days dt * 3600 * 24 + seconds dt))
       (fdiv (of_int (microseconds dt)) (of_int 100000)).

Definition _hours_for (inst : instance) (period_start period_stop : datetime)
  : outcome (pynum F) :=
  terminated ← as_datetime (terminated_at inst);
  launched ← as_datetime (launched_at inst);
  if match terminated with Some t => t <? period_start | None => false end
  then Returns (PInt 0)
  else if match launched with Some l => l >? period_stop | None => false end
  then Returns (PInt 0)
  else match launched with
       | Some l =>
           let start := Z.max l period_start in
           let stop := match terminated with
                       | Some t => Z.min period_stop t
                       | None => period_stop
                       end in
           let dt := dt_sub stop start in
           let secs := elapsed_seconds dt in
           Returns (PFloat (fdiv secs (of_int 3600)))
       | None => Returns (PInt 0)
       end.

(** *** Flavor resolution *)

(** [flavors_cache] is the dict of one report run; the function may add to
    it, so the cache is returned with the result. *)
Definition _get_flavor (ctx : context C) (inst : instance)
    (flavors_cache : gmap Z Flavor.t)
  : outcome (option Flavor.t * gmap Z Flavor.t) :=
  match extract_flavor C inst with
  | Some fl => Returns (Some fl, flavors_cache)
  | None =>
      if negb (deleted inst) then Raises KeyError
      else
        let flavor_type := instance_type_id inst in
        match flavors_cache !! flavor_type with
        | Some fl => Returns (Some fl, flavors_cache)
        | None =>
            match get_instance_type C ctx flavor_type with
            | Some it_ref =>
                Returns (Some it_ref, <[flavor_type := it_ref]> flavors_cache)
            | None => Returns (None, flavors_cache)
            end
        end
  end.

(** *** Effects: the clock and the instance lookup *)

(** The clock is read by position; every call of the instance lookup is
    recorded with its arguments. *)
Record world := {
  clock_reads : nat;
  lookups : list (datetime * datetime * option string);
}.

Definition M (A : Type) : Type := world -> outcome A * world.

#[local] Instance M_ret : MRet M := fun _ a w => (Returns a, w).
#[local] Instance M_bind : MBind M := fun _ _ f m w =>
  match m w with
  | (Returns a, w') => f a w'
  | (Raises e, w') => (Raises e, w')
  end.

Definition raise {A : Type} (e : exn) : M A := fun w => (Raises e, w).

Definition lift {A : Type} (o : outcome A) : M A := fun w => (o, w).

(** [timeutils.utcnow()] *)
Definition utcnow : M datetime := fun w =>
  (Returns (utcnow_at C (clock_reads w)),
   {| clock_reads := S (clock_reads w); lookups := lookups w |}).

(** [compute_api.get_active_by_window(context, begin, end, tenant_id)] *)
Definition active_by_window (ctx : context C) (period_start period_stop : datetime)
    (tenant_id : option string) : M (list instance) := fun w =>
  (Returns (get_active_by_window C ctx period_start period_stop tenant_id),
   {| clock_reads := clock_reads w;
      lookups := lookups w ++ [(period_start, period_stop, tenant_id)] |}).

(** [for x in l: s = body(s, x)], stopping at the first exception. *)
Fixpoint for_each {A S : Type} (body : S -> A -> M S) (l : list A) (s : S)
  : M S :=
  match l with
  | [] => mret s
  | x :: rest => s' ← body s x; for_each body rest s'
  end.

(** *** Aggregation *)

(** [a - b] where either side may be [None] or text: only two datetimes
    subtract, anything else is a [TypeError]. *)
Definition ts_sub (a b : pyts) : outcome timedelta :=
  match a, b with
  | TDatetime x, TDatetime y => Returns (dt_sub x y)
  | _, _ => Raises TypeError
  end.

(** Lines 149-159: the summary created when a tenant is first seen. *)
Definition new_summary (tenant : string) (period_start period_stop : datetime)
    (detailed : bool) : Summary.t F :=
  {| Summary.tenant_id := tenant;
     Summary.server_usages := if detailed then Some [] else None;
     Summary.total_local_gb_usage := PInt 0;
     Summary.total_vcpus_usage := PInt 0;
     Summary.total_memory_mb_usage := PInt 0;
     Summary.total_hours := PInt 0;
     Summary.start := period_start;
     Summary.stop := period_stop |}.

(** Lines 161-169: add one [info] to its tenant's summary. *)
Definition accumulate (detailed : bool) (summary : Summary.t F)
    (info : Info.t F) : outcome (Summary.t F) :=
  usages ←
    (if detailed then
       match Summary.server_usages summary with
       | Some l => Returns (Some (l ++ [info]))
       | None => Raises KeyError
       end
     else Returns (Summary.server_usages summary));
  Returns
    {| Summary.tenant_id := Summary.tenant_id summary;
       Summary.server_usages := usages;
       Summary.total_local_gb_usage :=
         padd (Summary.total_local_gb_usage summary)
              (pmul (PInt (Info.local_gb info)) (Info.hours info));
       Summary.total_vcpus_usage :=
         padd (Summary.total_vcpus_usage summary)
              (pmul (PInt (Info.vcpus info)) (Info.hours info));
       Summary.total_memory_mb_usage :=
         padd (Summary.total_memory_mb_usage summary)
              (pmul (PInt (Info.memory_mb info)) (Info.hours info));
       Summary.total_hours :=
         padd (Summary.total_hours summary) (Info.hours info);
       Summary.start := Summary.start summary;
       Summary.stop := Summary.stop summary |}.

(** The state of the loop: [rval] and the flavor cache. *)
Definition loop_state : Type := gmap string (Summary.t F) * gmap Z Flavor.t.

(** Lines 111-169: the body of [for instance in instances]. *)
Definition usage_step (ctx : context C) (period_start period_stop : datetime)
    (detailed : bool) (st : loop_state) (inst : instance) : M loop_state :=
  let '(rval, flavors) := st in
  hours ← lift (_hours_for inst period_start period_stop);
  '(flavor, flavors) ← lift (_get_flavor ctx inst flavors);
  match flavor with
  | None => mret (rval, flavors)                      (* continue *)
  | Some flavor =>
      let started := launched_at inst in
      let ended := terminated_at inst in
      let state := if truthy ended then "terminated"%string
                   else vm_state inst in
      now ← utcnow;
      delta ← lift (if String.eqb state "terminated"
                    then ts_sub ended started
                    else ts_sub (TDatetime now) started);
      let info :=
        {| Info.hours := hours;
           Info.instance_id := uuid inst;
           Info.name := display_name inst;
           Info.memory_mb := Flavor.memory_mb flavor;
           Info.local_gb := Flavor.root_gb flavor + Flavor.ephemeral_gb flavor;
           Info.vcpus := Flavor.vcpus flavor;
           Info.tenant_id := project_id inst;
           Info.flavor := Flavor.name flavor;
           Info.started_at := started;
           Info.ended_at := ended;
           Info.state := state;
           Info.uptime := days delta * 24 * 3600 + seconds delta |} in
      let tenant := Info.tenant_id info in
      let rval :=
        match rval !! tenant with
        | Some _ => rval
        | None =>
            <[tenant := new_summary tenant period_start period_stop detailed]>
              rval
        end in
      match rval !! tenant with
      | None => raise KeyError
      | Some summary =>
          summary ← lift (accumulate detailed summary info);
          mret (<[tenant := summary]> rval, flavors)
      end
  end.

(** [rval.values()]: the summaries, in the map's own order (Python 2 gives
    no order either). *)
Definition values (rval : gmap string (Summary.t F)) : list (Summary.t F) :=
  (map_to_list rval).*2.

(** Lines 107-171: the loop over the instances found, from an empty [rval]
    and an empty cache, and the values of [rval] at its end. *)
Definition usages_of_instances (ctx : context C)
    (period_start period_stop : datetime) (detailed : bool)
    (instances : list instance) : M (list (Summary.t F)) :=
  st ← for_each (usage_step ctx period_start period_stop detailed)
                instances ((∅, ∅) : loop_state);
  mret (values st.1).

Definition _tenant_usages_for_period (ctx : context C)
    (period_start period_stop : datetime) (tenant_id : option string)
    (detailed : bool) : M (list (Summary.t F)) :=
  instances ← active_by_window ctx period_start period_stop tenant_id;
  usages_of_instances ctx period_start period_stop detailed instances.

(** *** Request handling *)

(** The parts of a request the handlers read: [req.environ['QUERY_STRING']]
    (it may be missing) and [req.environ['nova.context']]. *)
Record request := {
  QUERY_STRING : option string;
  nova_context : context C;
}.

(** [for format in VALID_DATETIME_FORMAT: try: return parse_strtime(...)] *)
Fixpoint try_formats (dtstr : string) (formats : list string)
  : option datetime :=
  match formats with
  | [] => None
  | format :: rest =>
      match parse_strtime C dtstr format with
      | Some t => Some t
      | None => try_formats dtstr rest
      end
  end.

(** The last branch is not reached: [None] is not true. *)
Definition _parse_datetime (dtstr : pyts) : M (option datetime) :=
  if negb (truthy dtstr) then now ← utcnow; mret (Some now)
  else match dtstr with
       | TDatetime t => mret (Some t)
       | TStr s => mret (try_formats s VALID_DATETIME_FORMAT)
       | TNone => raise TypeError
       end.

(** [env.get(key, [default])[0]] on the dict that [parse_qs] returns. *)
Definition query_value (env : gmap string (list string)) (key : string)
    (default : pyts) : outcome pyts :=
  match env !! key with
  | None => Returns default
  | Some [] => Raises IndexError
  | Some (v :: _) => Returns (TStr v)
  end.

Definition _get_datetime_range (req : request)
  : M (datetime * datetime * bool) :=
  let qs := match QUERY_STRING req with Some q => q | None => EmptyString end in
  let env := parse_qs C qs in
  start_value ← lift (query_value env "start" TNone);
  period_start ← _parse_datetime start_value;
  match period_start with
  | None => raise (HTTPBadRequest StartInvalidFormat)
  | Some period_start =>
      end_value ← lift (query_value env "end" TNone);
      period_stop ← _parse_datetime end_value;
      match period_stop with
      | None => raise (HTTPBadRequest StopInvalidFormat)
      | Some period_stop =>
          if negb (period_start <? period_stop)
          then raise (HTTPBadRequest StartAfterEnd)
          else
            detailed_value ← lift (query_value env "detailed" (TStr "0"));
            let detailed :=
              match detailed_value with
              | TStr v => String.eqb v "1"
              | _ => false
              end in
            mret (period_start, period_stop, detailed)
      end
  end.

(** [authorize_list(context)] and [authorize_show(context, target)] *)
Definition check (allowed : bool) : M unit :=
  if allowed then mret tt else raise Forbidden.

(** [index]: the value of the key [tenant_usages] of the response. *)
Definition index (req : request) : M (list (Summary.t F)) :=
  let ctx := nova_context req in
  _ ← check (authorize_list C ctx);
  '(period_start, period_stop, detailed) ← _get_datetime_range req;
  now ← utcnow;
  let period_stop := if period_stop >? now then now else period_stop in
  _tenant_usages_for_period ctx period_start period_stop None detailed.

(** [show]: the value of the key [tenant_usage] of the response, [None] for
    the empty dict. *)
Definition show (req : request) (id : string) : M (option (Summary.t F)) :=
  let tenant_id := id in
  let ctx := nova_context req in
  _ ← check (authorize_show C ctx tenant_id);
  '(period_start, period_stop, ignore) ← _get_datetime_range req;
  now ← utcnow;
  let period_stop := if period_stop >? now then now else period_stop in
  usage ← _tenant_usages_for_period ctx period_start period_stop
                                    (Some tenant_id) true;
  mret (match usage with
        | u :: _ => Some u
        | [] => None
        end).

End Controller.

Arguments QUERY_STRING {C} _.
Arguments nova_context {C} _.

End SimpleTenantUsageController.

(** ** The report in the words of the specification

    The definitions the properties below are stated with: the effective
    interval of an instance, the flavor an instance resolves to, the sums
    over a detail list, and what it means for a summary to agree with the
    instances it was built from. *)

Module Report.
Import SimpleTenantUsageController.

(** The effective interval:
    [[max(launch, window.start), min(window.stop, termination_or_window.stop)]]. *)
Definition effective_start (launch period_start : datetime) : datetime :=
  Z.max launch period_start.

Definition effective_stop (termination : option datetime)
    (period_stop : datetime) : datetime :=
  Z.min period_stop
        (match termination with Some t => t | None => period_stop end).

(** The length of a window in hours: [(stop - start).total_seconds() / 3600]. *)
Definition duration_hours {F : Type} `{FloatOps F} (start stop : datetime) : F :=
  fdiv (fdiv (of_int (stop - start)) (of_int 1000000)) (of_int 3600).

(** The world after one more reading of the clock. *)
Definition tick (w : world) : world :=
  {| clock_reads := S (clock_reads w); lookups := lookups w |}.

(** The world after one more instance lookup. *)
Definition looked_up (w : world) (period_start period_stop : datetime)
    (tenant_id : option string) : world :=
  {| clock_reads := clock_reads w;
     lookups := lookups w ++ [(period_start, period_stop, tenant_id)] |}.

Section Definitions.
Context {F : Type} `{FloatOps F}.
Variable C : collaborators.
Variable ctx : context C.
Variables period_start period_stop : datetime.
Variable detailed : bool.

(** The flavor of an instance without the cache: the embedded one, else the
    catalog's. *)
Definition resolves (inst : instance) : option Flavor.t :=
  match extract_flavor C inst with
  | Some fl => Some fl
  | None => get_instance_type C ctx (instance_type_id inst)
  end.

(** The cache only holds what the catalog answered. *)
Definition cache_sound (cache : gmap Z Flavor.t) : Prop :=
  forall k fl, cache !! k = Some fl -> get_instance_type C ctx k = Some fl.

(** The summary an [info] is added to: the tenant's, or a new one. *)
Definition summary_of (rval : gmap string (Summary.t F)) (tenant : string)
  : Summary.t F :=
  match rval !! tenant with
  | Some s => s
  | None => new_summary tenant period_start period_stop detailed
  end.

(** What an instance's [info] says about it. *)
Definition usage_of (inst : instance) (info : Info.t F) : Prop :=
  _hours_for C inst period_start period_stop = Returns (Info.hours info)
  /\ Info.instance_id info = uuid inst
  /\ Info.tenant_id info = project_id inst
  /\ exists fl, resolves inst = Some fl
       /\ Info.vcpus info = Flavor.vcpus fl
       /\ Info.memory_mb info = Flavor.memory_mb fl
       /\ Info.local_gb info = Flavor.root_gb fl + Flavor.ephemeral_gb fl.

(** The sum of a quantity over a detail list, added up in list order from
    the integer [0] as the loop does. *)
Definition sum_of (f : Info.t F -> pynum F) (l : list (Info.t F)) : pynum F :=
  fold_left (fun acc info => padd acc (f info)) l (PInt 0).

Definition vcpus_hours (info : Info.t F) : pynum F :=
  pmul (PInt (Info.vcpus info)) (Info.hours info).

Definition memory_mb_hours (info : Info.t F) : pynum F :=
  pmul (PInt (Info.memory_mb info)) (Info.hours info).

Definition local_gb_hours (info : Info.t F) : pynum F :=
  pmul (PInt (Info.local_gb info)) (Info.hours info).

(** The instances of a tenant that are billed: those whose flavor resolves. *)
Definition billed (tenant : string) (instances : list instance)
  : list instance :=
  filter (fun i => project_id i = tenant /\ is_Some (resolves i)) instances.

(** A summary agrees with a list of instances: its totals are the sums over
    its entries, and its entries are those of the billed instances of its
    tenant, one each and in order.  Outside detailed mode the entries are not
    stored. *)
Definition summary_ok (tenant : string) (instances : list instance)
    (s : Summary.t F) : Prop :=
  Summary.tenant_id s = tenant
  /\ exists l,
       Summary.server_usages s = (if detailed then Some l else None)
       /\ Summary.total_hours s = sum_of Info.hours l
       /\ Summary.total_vcpus_usage s = sum_of vcpus_hours l
       /\ Summary.total_memory_mb_usage s = sum_of memory_mb_hours l
       /\ Summary.total_local_gb_usage s = sum_of local_gb_hours l
       /\ Forall2 usage_of (billed tenant instances) l.

Definition rval_ok (instances : list instance)
    (rval : gmap string (Summary.t F)) : Prop :=
  forall tenant,
    match rval !! tenant with
    | Some s => summary_ok tenant instances s
    | None => billed tenant instances = []
    end.

End Definitions.

End Report.

(** ** A concrete deployment

    Collaborators, instances and requests to run the controller on: the
    examples of the properties below are evaluated here. *)

Module Demo.
Import SimpleTenantUsageController.

(** Midnight of 2013-01-01 and of the two days after it (day 734869 is
    [date(2013, 1, 1).toordinal()]). *)
Definition jan1 : datetime := at_time 734869 0 0 0 0.
Definition jan2 : datetime := at_time 734870 0 0 0 0.
Definition jan3 : datetime := at_time 734871 0 0 0 0.

Definition m1_small : Flavor.t :=
  {| Flavor.name := "m1.small"; Flavor.memory_mb := 2048;
     Flavor.root_gb := 20; Flavor.ephemeral_gb := 0; Flavor.vcpus := 1 |}.

Definition m1_large : Flavor.t :=
  {| Flavor.name := "m1.large"; Flavor.memory_mb := 8192;
     Flavor.root_gb := 80; Flavor.ephemeral_gb := 20; Flavor.vcpus := 4 |}.

Definition server (id tenant : string) (launched terminated : pyts)
    (flavor_type : Z) (is_deleted : bool) : instance :=
  {| uuid := id; display_name := id; project_id := tenant;
     launched_at := launched; terminated_at := terminated;
     vm_state := if is_deleted then "deleted" else "active";
     instance_type_id := flavor_type; deleted := is_deleted |}.

(** The only texts [parse_strtime] knows, each in the first layout of
    [VALID_DATETIME_FORMAT]. *)
Definition demo_parse_strtime (text format : string) : option datetime :=
  if String.eqb format "%Y-%m-%dT%H:%M:%S" then
    if String.eqb text "2013-01-01T00:00:00" then Some jan1
    else if String.eqb text "2013-01-02T00:00:00" then Some jan2
    else if String.eqb text "2013-01-03T00:00:00" then Some jan3
    else None
  else None.

Definition query (first last : string) : gmap string (list string) :=
  {[ "start"%string := [first]; "end"%string := [last] ]}.

(** Three query strings: a day, the same day inverted, two days. *)
Definition day_query : string :=
  "start=2013-01-01T00:00:00&end=2013-01-02T00:00:00".
Definition inverted_query : string :=
  "start=2013-01-02T00:00:00&end=2013-01-01T00:00:00".
Definition two_days_query : string :=
  "start=2013-01-01T00:00:00&end=2013-01-03T00:00:00".

Definition demo_parse_qs (qs : string) : gmap string (list string) :=
  if String.eqb qs day_query
  then query "2013-01-01T00:00:00" "2013-01-02T00:00:00"
  else if String.eqb qs inverted_query
  then query "2013-01-02T00:00:00" "2013-01-01T00:00:00"
  else if String.eqb qs two_days_query
  then query "2013-01-01T00:00:00" "2013-01-03T00:00:00"
  else ∅.

(** A deployment with the given instances whose clock stands at [now].
    Deleted instances carry no embedded flavor; the catalog knows flavor 1
    only; every caller is authorized. *)
Definition deployment (instances : list instance) (now : datetime)
  : collaborators :=
  {| context := unit;
     parse_strtime := demo_parse_strtime;
     parse_qs := demo_parse_qs;
     utcnow_at := fun _ => now;
     authorize_list := fun _ => true;
     authorize_show := fun _ _ => true;
     get_active_by_window := fun _ _ _ tenant =>
       match tenant with
       | None => instances
       | Some t => filter (fun i => project_id i = t) instances
       end;
     extract_flavor := fun inst =>
       if deleted inst then None else Some m1_small;
     get_instance_type := fun _ flavor_type =>
       if flavor_type =? 1 then Some m1_large else None |}.

Definition request_of (C : collaborators) (ctx : context C) (qs : string)
  : request C :=
  {| QUERY_STRING := Some qs; nova_context := ctx |}.

Definition w0 : world := {| clock_reads := 0; lookups := [] |}.

(** Launched at 06:00 on the first day and still running. *)
Definition web : instance :=
  server "web" "acme" (TDatetime (at_time 734869 6 0 0 0)) TNone 2 false.

(** Launched before the window, terminated at noon of the first day. *)
Definition batch : instance :=
  server "batch" "acme" (TDatetime (at_time 734868 0 0 0 0))
         (TDatetime (at_time 734869 12 0 0 0)) 2 false.

(** Another tenant's instance, deleted, flavor known to the catalog. *)
Definition db : instance :=
  server "db" "globex" (TDatetime (at_time 734869 0 0 0 0))
         (TDatetime (at_time 734869 18 0 0 500000)) 1 true.

(** A deleted instance whose flavor the catalog has lost. *)
Definition ghost : instance :=
  server "ghost" "acme" (TDatetime (at_time 734869 0 0 0 0))
         (TDatetime (at_time 734869 1 0 0 0)) 7 true.

(** An instance that was scheduled and never launched. *)
Definition unborn : instance :=
  server "unborn" "acme" TNone TNone 2 false.

(** Launched with the window and running through it. *)
Definition steady : instance :=
  server "steady" "acme" (TDatetime jan1) TNone 2 false.

(** Four instances; the clock stands at the end of the first day. *)
Definition D : collaborators := deployment [web; batch; db; ghost] jan2.

End Demo.

(** ** The entries of a report

    The vocabulary of the further properties: the [info] built for an
    instance, what can be read off an entry, and timestamp fields that do not
    parse. *)

Module Entries.
Import SimpleTenantUsageController.

(** Lines 134-137: the state recorded for an instance. *)
Definition entry_state (inst : instance) : string :=
  if truthy (terminated_at inst) then "terminated"%string else vm_state inst.

(** Lines 111-146: the [info] of an instance, from its hours, its flavor and
    the difference taken for its uptime. *)
Definition entry_of {F : Type} (inst : instance) (hours : pynum F)
    (flavor : Flavor.t) (delta : timedelta) : Info.t F :=
  {| Info.hours := hours;
     Info.instance_id := uuid inst;
     Info.name := display_name inst;
     Info.memory_mb := Flavor.memory_mb flavor;
     Info.local_gb := Flavor.root_gb flavor + Flavor.ephemeral_gb flavor;
     Info.vcpus := Flavor.vcpus flavor;
     Info.tenant_id := project_id inst;
     Info.flavor := Flavor.name flavor;
     Info.started_at := launched_at inst;
     Info.ended_at := terminated_at inst;
     Info.state := entry_state inst;
     Info.uptime := days delta * 24 * 3600 + seconds delta |}.

(** The whole seconds from [a] to [b], rounded down. *)
Definition whole_seconds_between (a b : datetime) : Z := (b - a) / 1000000.

Section Definitions.
Context {F : Type}.
Variable C : collaborators.

(** The timestamp a field of an instance record holds: none for [None], the
    value of a [datetime], and for text what [parse_strtime] reads in the
    layout [%Y-%m-%d %H:%M:%S.%f].  Text that does not parse holds none. *)
Definition reads_as (v : pyts) (o : option datetime) : Prop :=
  match v with
  | TNone => o = None
  | TDatetime t => o = Some t
  | TStr s =>
      exists t, parse_strtime C s "%Y-%m-%d %H:%M:%S.%f" = Some t
                /\ o = Some t
  end.

(** A timestamp field that is text and does not parse in the fixed layout. *)
Definition unreadable (v : pyts) : Prop :=
  exists s, v = TStr s /\ parse_strtime C s "%Y-%m-%d %H:%M:%S.%f" = None.

(** What every entry of a report says: it has a launch time; in state
    [terminated] it has an end time and its uptime runs to that; in any other
    state it has no end time and its uptime runs to a reading of the clock. *)
Definition entry_ok (info : Info.t F) : Prop :=
  exists started,
    Info.started_at info = TDatetime started
    /\ (Info.state info = "terminated"%string ->
        exists ended,
          Info.ended_at info = TDatetime ended
          /\ Info.uptime info = whole_seconds_between started ended)
    /\ (Info.state info <> "terminated"%string ->
        truthy (Info.ended_at info) = false
        /\ exists n,
             Info.uptime info
             = whole_seconds_between started (utcnow_at C n)).

Variable ctx : context C.
Variables period_start period_stop : datetime.

(** What the loop keeps true of [rval]: each summary is keyed by its tenant,
    is stamped with the window, and its tenant has an instance, among those
    processed, whose flavor resolved. *)
Definition stamped (processed : list instance)
    (rval : gmap string (Summary.t F)) : Prop :=
  forall t s, rval !! t = Some s ->
    Summary.tenant_id s = t
    /\ Summary.start s = period_start
    /\ Summary.stop s = period_stop
    /\ exists i, i ∈ processed /\ project_id i = t
                 /\ is_Some (Report.resolves C ctx i).

(** And: every entry stored in a summary satisfies [entry_ok]. *)
Definition entries_ok (rval : gmap string (Summary.t F)) : Prop :=
  forall t s l, rval !! t = Some s -> Summary.server_usages s = Some l ->
    Forall entry_ok l.

End Definitions.

End Entries.

(** ** Further concrete data *)

Module MoreDemo.
Import SimpleTenantUsageController Demo.

(** The deployment [D] after the embedded flavors were lost: no instance
    record carries a flavor. *)
Definition stripped : collaborators :=
  {| context := unit;
     parse_strtime := parse_strtime D;
     parse_qs := parse_qs D;
     utcnow_at := utcnow_at D;
     authorize_list := fun _ => true;
     authorize_show := fun _ _ => true;
     get_active_by_window := fun _ _ _ _ => [db; web; batch];
     extract_flavor := fun _ => None;
     get_instance_type := get_instance_type D |}.

(** A deployment that lets nobody in. *)
Definition closed : collaborators :=
  {| context := unit;
     parse_strtime := parse_strtime D;
     parse_qs := parse_qs D;
     utcnow_at := utcnow_at D;
     authorize_list := fun _ => false;
     authorize_show := fun _ _ => false;
     get_active_by_window := get_active_by_window D;
     extract_flavor := extract_flavor D;
     get_instance_type := get_instance_type D |}.

(** A deployment whose clock advances by one microsecond per reading. *)
Definition ticking : collaborators :=
  {| context := unit;
     parse_strtime := parse_strtime D;
     parse_qs := parse_qs D;
     utcnow_at := fun n => jan2 + Z.of_nat n;
     authorize_list := fun _ => true;
     authorize_show := fun _ _ => true;
     get_active_by_window := get_active_by_window D;
     extract_flavor := extract_flavor D;
     get_instance_type := get_instance_type D |}.

(** A deployment whose records hold their timestamps as text: its parser
    reads one text, in any layout. *)
Definition textual : collaborators :=
  {| context := unit;
     parse_strtime := fun text _ =>
       if String.eqb text "2013-01-01 00:00:00.000000" then Some jan1
       else None;
     parse_qs := parse_qs D;
     utcnow_at := utcnow_at D;
     authorize_list := fun _ => true;
     authorize_show := fun _ _ => true;
     get_active_by_window := get_active_by_window D;
     extract_flavor := extract_flavor D;
     get_instance_type := get_instance_type D |}.

(** An instance whose launch time is text that [textual] reads. *)
Definition texty : instance :=
  server "texty" "acme" (TStr "2013-01-01 00:00:00.000000") TNone 2 false.

(** An instance whose end time is text that nothing reads. *)
Definition garbled : instance :=
  server "garbled" "acme" (TDatetime jan1) (TStr "yesterday") 2 false.


(** A deployment whose every request asks for the window from
    [yesterday]. *)
Definition sloppy : collaborators :=
  {| context := unit;
     parse_strtime := parse_strtime D;
     parse_qs := fun _ => {[ "start"%string := ["yesterday"%string] ]};
     utcnow_at := utcnow_at D;
     authorize_list := fun _ => true;
     authorize_show := fun _ _ => true;
     get_active_by_window := get_active_by_window D;
     extract_flavor := extract_flavor D;
     get_instance_type := get_instance_type D |}.

(** A record that was never launched and whose end time is text that
    nothing reads. *)
Definition undated : instance :=
  server "undated" "acme" TNone (TStr "yesterday") 2 false.

(** A request without a query string. *)
Definition bare_request (C : collaborators) (ctx : context C) : request C :=
  {| QUERY_STRING := None; nova_context := ctx |}.

End MoreDemo.

(** * Properties *)

(** ** Exact arithmetic satisfies the order facts *)

Module PyNumFacts.

#[export] Instance exact_order : FloatOrder Q.
Proof.
  split; simpl.
  - intros n Hn. apply Qle_bool_iff. unfold Qle; simpl. lia.
  - intros x y Hx Hy. apply Qle_bool_iff in Hx, Hy. apply Qle_bool_iff.
    change (inject_Z 0) with (0 + 0)%Q. apply Qplus_le_compat; assumption.
  - intros x n Hx Hn. apply Qle_bool_iff in Hx. apply Qle_bool_iff.
    unfold Qdiv. apply Qmult_le_0_compat; [exact Hx|].
    apply Qinv_le_0_compat. unfold Qle; simpl. destruct Hn; lia.
Qed.

(** *** Binary64 satisfies them too

    By the specification of the primitive floats ([SpecFloat]): rounding a
    non-negative mantissa never yields a negative float or a NaN. *)

Lemma SFleb_zero (x : spec_float) :
  SFleb (S754_zero false) x = sf_nonneg x.
Proof. destruct x as [s|s| |s m e]; try destruct s; reflexivity. Qed.

Lemma b64_leb_zero (x : PrimFloat.float) :
  PrimFloat.leb (b64_of_int 0) x = sf_nonneg (Prim2SF x).
Proof. rewrite FloatAxioms.leb_spec. apply SFleb_zero. Qed.

Lemma shr_1_nonneg (mrs : shr_record) :
  0 <= shr_m mrs -> 0 <= shr_m (shr_1 mrs).
Proof.
  destruct mrs as [m r s]; simpl.
  destruct m as [|p|p]; [reflexivity| |lia].
  intros _. destruct p; simpl; lia.
Qed.

Lemma iter_shr_1_nonneg (n : positive) (mrs : shr_record) :
  0 <= shr_m mrs -> 0 <= shr_m (SpecFloat.iter_pos shr_1 n mrs).
Proof.
  revert mrs. induction n as [n IH|n IH|]; intros mrs Hm; simpl.
  - apply IH, IH, shr_1_nonneg, Hm.
  - apply IH, IH, Hm.
  - apply shr_1_nonneg, Hm.
Qed.

Lemma shr_fexp_nonneg (m e : Z) (l : location) :
  0 <= m -> 0 <= shr_m (shr_fexp prec emax m e l).1.
Proof.
  intros Hm. unfold shr_fexp, shr.
  assert (Hrec : 0 <= shr_m (shr_record_of_loc m l)).
  { destruct l as [|[| |]]; exact Hm. }
  destruct (fexp prec emax (Zdigits2 m + e) - e); simpl;
    [exact Hrec|apply iter_shr_1_nonneg, Hrec|exact Hrec].
Qed.

Lemma round_nearest_even_nonneg (m : Z) (l : location) :
  0 <= m -> 0 <= round_nearest_even m l.
Proof.
  intros Hm. destruct l as [|[| |]]; simpl; try lia.
  destruct (Z.even m); lia.
Qed.

Lemma binary_round_aux_nonneg (m e : Z) (l : location) :
  0 <= m -> sf_nonneg (binary_round_aux prec emax false m e l) = true.
Proof.
  intros Hm. unfold binary_round_aux.
  pose proof (shr_fexp_nonneg m e l Hm) as H1.
  destruct (shr_fexp prec emax m e l) as [mrs1 e1]. simpl in H1.
  pose proof (shr_fexp_nonneg _ e1 loc_Exact
                (round_nearest_even_nonneg _ (loc_of_shr_record mrs1) H1))
    as H2.
  destruct (shr_fexp prec emax _ e1 loc_Exact) as [mrs2 e2]. simpl in H2.
  destruct (shr_m mrs2) as [|p|p]; [reflexivity| |lia].
  destruct (e2 <=? emax - prec); reflexivity.
Qed.

Lemma binary_round_nonneg (m : positive) (e : Z) :
  sf_nonneg (binary_round prec emax false m e) = true.
Proof.
  unfold binary_round. destruct (shl_align m e _) as [mz ez].
  apply binary_round_aux_nonneg. lia.
Qed.

Lemma binary_normalize_nonneg (m e : Z) :
  0 <= m -> sf_nonneg (binary_normalize prec emax m e false) = true.
Proof.
  intros Hm. destruct m as [|p|p]; [reflexivity| |lia].
  apply binary_round_nonneg.
Qed.

Lemma SFldexp_nonneg (x : spec_float) (e : Z) :
  sf_nonneg x = true -> sf_nonneg (SFldexp prec emax x e) = true.
Proof.
  destruct x as [s|s| |s m ex]; simpl; try (intros Hx; exact Hx).
  destruct s; [discriminate|]. intros _. apply binary_round_nonneg.
Qed.

(** Going from the specification to the primitive float keeps the sign. *)
Lemma SF2Prim_nonneg (x : spec_float) :
  sf_nonneg x = true -> sf_nonneg (Prim2SF (SF2Prim x)) = true.
Proof.
  destruct x as [s|s| |s m e]; simpl; try discriminate.
  - intros _. destruct s; reflexivity.
  - destruct s; [discriminate|]. intros _. reflexivity.
  - destruct s; [discriminate|]. intros _. unfold Z.ldexp.
    rewrite FloatAxioms.ldshiftexp_spec. apply SFldexp_nonneg.
    rewrite FloatAxioms.of_uint63_spec. apply binary_normalize_nonneg.
    apply Uint63.to_Z_bounded.
Qed.

Lemma b64_of_int_nonneg (n : Z) :
  0 <= n -> sf_nonneg (Prim2SF (b64_of_int n)) = true.
Proof.
  intros Hn. unfold b64_of_int.
  apply SF2Prim_nonneg, binary_normalize_nonneg, Hn.
Qed.

Lemma SFadd_nonneg (x y : spec_float) :
  sf_nonneg x = true -> sf_nonneg y = true ->
  sf_nonneg (SFadd prec emax x y) = true.
Proof.
  destruct x as [sx|sx| |sx mx ex], y as [sy|sy| |sy my ey];
    try destruct sx; try destruct sy; simpl; try discriminate;
    try reflexivity.
  intros _ _. apply binary_round_nonneg.
Qed.

Lemma SFdiv_nonneg (x : spec_float) (m : positive) (e : Z) :
  sf_nonneg x = true ->
  sf_nonneg (SFdiv prec emax x (S754_finite false m e)) = true.
Proof.
  destruct x as [sx|sx| |sx mx ex]; try destruct sx; simpl;
    try discriminate; try reflexivity.
  intros _. unfold SFdiv_core_binary.
  match goal with
  | |- context [Z.div_eucl ?a ?b] =>
      pose proof (Z.div_pos a b) as Hq; unfold Z.div in Hq;
      assert (Ha : 0 <= a);
      [|destruct (Z.div_eucl a b) as [q r]]
  end.
  - destruct (_ - _ - _) as [|p|p]; try lia. rewrite Z.shiftl_mul_pow2 by lia.
    apply Z.mul_nonneg_nonneg; [lia|]. apply Z.pow_nonneg. lia.
  - apply binary_round_aux_nonneg. apply Hq; [exact Ha|lia].
Qed.

#[export] Instance binary64_order : FloatOrder PrimFloat.float.
Proof.
  split; simpl.
  - intros n Hn. rewrite b64_leb_zero. apply b64_of_int_nonneg, Hn.
  - intros x y. rewrite !b64_leb_zero, FloatAxioms.add_spec.
    apply SFadd_nonneg.
  - intros x n Hx Hn. rewrite b64_leb_zero in *.
    rewrite FloatAxioms.div_spec.
    destruct Hn as [-> | ->].
    + change (Prim2SF (b64_of_int 100000))
        with (S754_finite false 6871947673600000 (-36)).
      apply SFdiv_nonneg, Hx.
    + change (Prim2SF (b64_of_int 3600))
        with (S754_finite false 7916483719987200 (-41)).
      apply SFdiv_nonneg, Hx.
Qed.

(** Two identities of the rationals used for the hours below. *)
Lemma tenfold_fraction (a b : Q) :
  ((a + b / 100000) / 3600 == (a + 10 * (b / 1000000)) / 3600)%Q.
Proof. field. Qed.

Lemma whole_seconds (a : Q) :
  ((a + 0 / 100000) / 3600 == a * 1000000 / 1000000 / 3600)%Q.
Proof. field. Qed.

End PyNumFacts.
Export PyNumFacts.

(** ** Facts about [timedelta] *)

Module DatetimeFacts.

Lemma dt_sub_nonneg (a b : datetime) :
  b <= a ->
  0 <= days (dt_sub a b) /\ 0 <= seconds (dt_sub a b)
  /\ 0 <= microseconds (dt_sub a b).
Proof.
  intros Hab. unfold dt_sub, us_per_day, us_per_second; simpl.
  repeat split.
  - apply Z.div_pos; lia.
  - apply Z.div_pos; [|lia]. apply Z.mod_pos_bound. lia.
  - apply Z.mod_pos_bound. lia.
Qed.

(** The three components are the normal form of the difference. *)
Lemma dt_sub_total (a b : datetime) :
  (days (dt_sub a b) * 86400 + seconds (dt_sub a b)) * 1000000
  + microseconds (dt_sub a b) = a - b.
Proof.
  unfold dt_sub, us_per_day, us_per_second; simpl.
  set (us := a - b).
  pose proof (Z.div_mod us 86400000000 ltac:(lia)) as Hd.
  pose proof (Z.div_mod (us mod 86400000000) 1000000 ltac:(lia)) as Hs.
  assert (Hm : (us mod 86400000000) mod 1000000 = us mod 1000000).
  { pose proof (Z.mod_pos_bound (us mod 86400000000) 1000000 ltac:(lia)).
    apply (Z.mod_unique _ _
             (86400 * (us / 86400000000) + us mod 86400000000 / 1000000));
      lia. }
  change (86400 * 1000000) with 86400000000. lia.
Qed.

Lemma dt_sub_range (a b : datetime) :
  0 <= seconds (dt_sub a b) < 86400
  /\ 0 <= microseconds (dt_sub a b) < 1000000.
Proof.
  unfold dt_sub, us_per_day, us_per_second; simpl.
  change (86400 * 1000000) with 86400000000.
  pose proof (Z.mod_pos_bound (a - b) 86400000000 ltac:(lia)).
  pose proof (Z.mod_pos_bound (a - b) 1000000 ltac:(lia)).
  split; [|lia]. split.
  - apply Z.div_pos; lia.
  - apply Z.div_lt_upper_bound; lia.
Qed.

End DatetimeFacts.
Export DatetimeFacts.

(** ** The hours calculator *)

Module HoursFacts.
Import SimpleTenantUsageController Report Entries.

Section Hours.
Context {F : Type} `{FloatOps F}.
Variable C : collaborators.

Ltac run_outcome :=
  unfold mbind, outcome_bind, mret, outcome_ret in *; simpl in *.

(** An instance that passes both guards is billed for its effective
    interval. *)
Lemma hours_for_billed (inst : instance) (period_start period_stop : datetime)
    (l : datetime) (terminated : option datetime) :
  as_datetime C (terminated_at inst) = Returns terminated ->
  as_datetime C (launched_at inst) = Returns (Some l) ->
  (forall t, terminated = Some t -> period_start <= t) ->
  l <= period_stop ->
  _hours_for C inst period_start period_stop =
  Returns (PFloat (fdiv (elapsed_seconds
                           (dt_sub (effective_stop terminated period_stop)
                                   (effective_start l period_start)))
                        (of_int 3600))).
Proof.
  intros Ht Hl Hguard1 Hguard2. unfold _hours_for. rewrite Ht, Hl. run_outcome.
  destruct terminated as [t|].
  - specialize (Hguard1 t eq_refl).
    destruct (Z.ltb_spec t period_start); [lia|].
    unfold Z.gtb. destruct (Z.compare_spec l period_stop); try lia; reflexivity.
  - unfold Z.gtb. destruct (Z.compare_spec l period_stop); try lia;
      unfold effective_stop; rewrite Z.min_id; reflexivity.
Qed.


(** The three ways of not being billed. *)
Lemma hours_for_terminated_early (inst : instance)
    (period_start period_stop : datetime) (launched : option datetime)
    (t : datetime) :
  as_datetime C (terminated_at inst) = Returns (Some t) ->
  as_datetime C (launched_at inst) = Returns launched ->
  t < period_start ->
  _hours_for C inst period_start period_stop = Returns (PInt 0).
Proof.
  intros Ht Hl Hlt. unfold _hours_for. rewrite Ht, Hl. run_outcome.
  destruct (Z.ltb_spec t period_start); [reflexivity|lia].
Qed.

Lemma hours_for_launched_late (inst : instance)
    (period_start period_stop : datetime) (terminated : option datetime)
    (l : datetime) :
  as_datetime C (terminated_at inst) = Returns terminated ->
  as_datetime C (launched_at inst) = Returns (Some l) ->
  period_stop < l ->
  _hours_for C inst period_start period_stop = Returns (PInt 0).
Proof.
  intros Ht Hl Hgt. unfold _hours_for. rewrite Ht, Hl. run_outcome.
  assert (Hgtb : (l >? period_stop) = true) by (apply Z.gtb_lt; lia).
  rewrite Hgtb. destruct terminated as [t|]; [|reflexivity].
  destruct (t <? period_start); reflexivity.
Qed.

Lemma hours_for_never_launched (inst : instance)
    (period_start period_stop : datetime) (terminated : option datetime) :
  as_datetime C (terminated_at inst) = Returns terminated ->
  launched_at inst = TNone ->
  _hours_for C inst period_start period_stop = Returns (PInt 0).
Proof.
  intros Ht Hnone. unfold _hours_for. rewrite Ht, Hnone. run_outcome.
  destruct terminated as [t|]; [|reflexivity].
  destruct (t <? period_start); reflexivity.
Qed.

(** A launch field that reads as no timestamp is [None]. *)
Lemma as_datetime_None (v : pyts) :
  as_datetime C v = Returns None -> v = TNone.
Proof.
  destruct v as [|t|s]; simpl; [reflexivity|discriminate|].
  destruct (parse_strtime C s _); discriminate.
Qed.

(** The calculator reads a field as the timestamp the field holds. *)
Lemma reads_as_datetime (v : pyts) (o : option datetime) :
  reads_as C v o -> as_datetime C v = Returns o.
Proof.
  destruct v as [|t|s]; simpl.
  - intros ->. reflexivity.
  - intros ->. reflexivity.
  - intros (t & -> & ->). reflexivity.
Qed.

(** C3, as amended.  For an instance record whose two timestamp fields are
    each [None], a [datetime] or text that parses in the layout, no hours are
    charged when the instance terminated before the window started, or was
    launched after the window stopped, or was never launched. *)
Theorem hours_for_zero (inst : instance) (period_start period_stop : datetime)
    (launched terminated : option datetime) :
  reads_as C (terminated_at inst) terminated ->
  reads_as C (launched_at inst) launched ->
  (exists t, terminated = Some t /\ t < period_start)
  \/ (exists l, launched = Some l /\ period_stop < l)
  \/ launched_at inst = TNone ->
  _hours_for C inst period_start period_stop = Returns (PInt 0).
Proof.
  intros Ht Hl. apply reads_as_datetime in Ht, Hl.
  intros [(t & -> & Hlt) | [(l & -> & Hgt) | Hnone]].
  - eapply hours_for_terminated_early; eassumption.
  - eapply hours_for_launched_late; eassumption.
  - eapply hours_for_never_launched; eassumption.
Qed.

(** C9, as amended.  For an instance record whose two timestamp fields are
    each [None], a [datetime] or text that parses in the layout: when the
    launch is not after the termination (where both exist) and the window is
    not empty, the calculator returns, and what it returns is not
    negative. *)
Theorem hours_for_nonneg {FO : FloatOrder F} (inst : instance)
    (period_start period_stop : datetime)
    (launched terminated : option datetime) :
  reads_as C (terminated_at inst) terminated ->
  reads_as C (launched_at inst) launched ->
  (forall l t, launched = Some l -> terminated = Some t -> l <= t) ->
  period_start < period_stop ->
  exists v, _hours_for C inst period_start period_stop = Returns v
            /\ nonneg v.
Proof.
  intros Ht Hl Hord Hwin. apply reads_as_datetime in Ht, Hl.
  destruct launched as [l|].
  2:{ exists (PInt 0). split; [|simpl; lia].
      apply (hours_for_never_launched inst _ _ terminated Ht).
      apply as_datetime_None, Hl. }
  destruct (Z_lt_le_dec period_stop l) as [Hlate|Hin].
  { exists (PInt 0). split; [|simpl; lia].
    apply (hours_for_launched_late inst _ _ terminated l Ht Hl Hlate). }
  assert (Hearly : (exists t, terminated = Some t /\ t < period_start)
                   \/ (forall t, terminated = Some t -> period_start <= t)).
  { destruct terminated as [t|]; [|right; discriminate].
    destruct (Z_lt_le_dec t period_start); [left; eauto|].
    right. intros ? [= <-]. assumption. }
  destruct Hearly as [(t & -> & Hearly)|Hlive].
  { exists (PInt 0). split; [|simpl; lia].
    apply (hours_for_terminated_early inst _ _ (Some l) t Ht Hl Hearly). }
  eexists. split; [apply (hours_for_billed inst _ _ l terminated); assumption|].
  simpl.
  assert (Hle : effective_start l period_start
                <= effective_stop terminated period_stop).
  { unfold effective_start, effective_stop. destruct terminated as [t|].
    - specialize (Hord l t eq_refl eq_refl). specialize (Hlive t eq_refl). lia.
    - lia. }
  destruct (dt_sub_nonneg _ _ Hle) as (Hd & Hs & Hm).
  apply fdiv_nonneg; [|right; reflexivity]. unfold elapsed_seconds.
  apply fadd_nonneg.
  - apply of_int_nonneg. lia.
  - apply fdiv_nonneg; [|left; reflexivity]. apply of_int_nonneg. assumption.
Qed.

End Hours.

(** *** In exact arithmetic *)

Section ExactHours.
Variable C : collaborators.

(** The fraction of a second counts ten times: the hours charged are those of
    [d*86400 + s] seconds plus ten times [m] microseconds. *)
Lemma hours_for_tenfold (inst : instance) (period_start period_stop : datetime)
    (l : datetime) (terminated : option datetime) (d s m : Z) :
  as_datetime C (terminated_at inst) = Returns terminated ->
  as_datetime C (launched_at inst) = Returns (Some l) ->
  (forall t, terminated = Some t -> period_start <= t) ->
  l <= period_stop ->
  dt_sub (effective_stop terminated period_stop)
         (effective_start l period_start)
  = {| days := d; seconds := s; microseconds := m |} ->
  exists q : Q,
    _hours_for C inst period_start period_stop = Returns (PFloat q)
    /\ (q == (inject_Z (d * 86400 + s) + 10 * (inject_Z m / 1000000)) / 3600)%Q.
Proof.
  intros Ht Hl Hg1 Hg2 Hdt. eexists. split.
  - apply (hours_for_billed C inst period_start period_stop l terminated);
      assumption.
  - rewrite Hdt. unfold elapsed_seconds; simpl.
    replace (d * 3600 * 24 + s) with (d * 86400 + s) by lia.
    change (inject_Z 100000) with 100000%Q.
    change (inject_Z 3600) with 3600%Q.
    apply tenfold_fraction.
Qed.

(** An instance that runs through a window lasting a whole number of seconds
    is charged the length of the window. *)
Lemma hours_for_whole_seconds (inst : instance)
    (period_start period_stop l : datetime) :
  launched_at inst = TDatetime l ->
  terminated_at inst = TNone ->
  l <= period_start -> l <= period_stop ->
  (period_stop - period_start) mod 1000000 = 0 ->
  exists q : Q,
    _hours_for C inst period_start period_stop = Returns (PFloat q)
    /\ (q == duration_hours period_start period_stop)%Q.
Proof.
  intros Hl Ht Hs He Hwhole. eexists. split.
  - apply (hours_for_billed C inst period_start period_stop l None).
    + rewrite Ht. reflexivity.
    + rewrite Hl. reflexivity.
    + discriminate.
    + assumption.
  - unfold effective_start, effective_stop, duration_hours, elapsed_seconds.
    rewrite Z.min_id, Z.max_r by assumption.
    assert (Hwhole' : microseconds (dt_sub period_stop period_start) = 0)
      by exact Hwhole.
    pose proof (dt_sub_total period_stop period_start) as Htotal.
    destruct (dt_sub period_stop period_start) as [d s m]. simpl in *.
    rewrite Hwhole' in *. rewrite <- Htotal.
    replace (d * 3600 * 24 + s) with (d * 86400 + s) by lia.
    rewrite Z.add_0_r, inject_Z_mult. apply whole_seconds.
Qed.

End ExactHours.

End HoursFacts.

(** ** The usage aggregator *)

Module AggregatorFacts.
Import SimpleTenantUsageController.

Section Aggregator.
Context {F : Type} `{FloatOps F}.
Variable C : collaborators.
Variable ctx : context C.
Variables period_start period_stop : datetime.
Variable detailed : bool.

#[local] Abbreviation resolves := (Report.resolves C ctx).
#[local] Abbreviation cache_sound := (Report.cache_sound C ctx).
#[local] Abbreviation summary_of :=
  (Report.summary_of period_start period_stop detailed).
#[local] Abbreviation usage_of :=
  (Report.usage_of C ctx period_start period_stop).
#[local] Abbreviation billed := (Report.billed C ctx).
#[local] Abbreviation summary_ok :=
  (Report.summary_ok C ctx period_start period_stop detailed).
#[local] Abbreviation rval_ok :=
  (Report.rval_ok C ctx period_start period_stop detailed).
#[local] Abbreviation sum_of := Report.sum_of.
#[local] Abbreviation vcpus_hours := Report.vcpus_hours.
#[local] Abbreviation memory_mb_hours := Report.memory_mb_hours.
#[local] Abbreviation local_gb_hours := Report.local_gb_hours.

Lemma cache_sound_empty : cache_sound ∅.
Proof. intros k fl Hk. rewrite lookup_empty in Hk. discriminate. Qed.

Lemma get_flavor_resolves (inst : instance) (cache cache' : gmap Z Flavor.t)
    (o : option Flavor.t) :
  cache_sound cache ->
  _get_flavor C ctx inst cache = Returns (o, cache') ->
  o = resolves inst /\ cache_sound cache'.
Proof.
  intros Hsound. unfold _get_flavor, Report.resolves.
  destruct (extract_flavor C inst) as [fl|].
  { intros [= <- <-]. auto. }
  destruct (deleted inst); simpl; [|discriminate].
  destruct (cache !! instance_type_id inst) as [fl|] eqn:Hhit.
  { intros [= <- <-]. rewrite (Hsound _ _ Hhit). auto. }
  destruct (get_instance_type C ctx (instance_type_id inst)) as [it|] eqn:Hcat.
  - intros [= <- <-]. split; [reflexivity|].
    intros k fl. destruct (decide (k = instance_type_id inst)) as [->|Hne].
    + rewrite lookup_insert_eq. intros [= <-]. exact Hcat.
    + rewrite lookup_insert_ne by congruence. apply Hsound.
  - intros [= <- <-]. auto.
Qed.

(** A failed legacy lookup: nothing embedded, the instance is deleted, the
    catalog does not know the flavor. *)
Lemma get_flavor_not_found (inst : instance) (cache : gmap Z Flavor.t) :
  cache_sound cache ->
  extract_flavor C inst = None ->
  deleted inst = true ->
  get_instance_type C ctx (instance_type_id inst) = None ->
  _get_flavor C ctx inst cache = Returns (None, cache).
Proof.
  intros Hsound Hext Hdel Hcat. unfold _get_flavor. rewrite Hext, Hdel, Hcat.
  simpl. destruct (cache !! instance_type_id inst) as [fl|] eqn:Hhit;
    [|reflexivity].
  rewrite (Hsound _ _ Hhit) in Hcat. discriminate.
Qed.


Ltac run_M :=
  unfold mbind, M_bind, mret, M_ret, lift, raise, outcome_bind, outcome_ret
    in *; simpl in *.

(** A step that skips: the flavor was not found. *)
Lemma usage_step_skip (rval : gmap string (Summary.t F))
    (cache cache' : gmap Z Flavor.t) (inst : instance) (h : pynum F)
    (w : world) :
  _hours_for C inst period_start period_stop = Returns h ->
  _get_flavor C ctx inst cache = Returns (None, cache') ->
  usage_step C ctx period_start period_stop detailed (rval, cache) inst w
  = (Returns (rval, cache'), w).
Proof.
  intros Hh Hfl. unfold usage_step. run_M. rewrite Hh, Hfl. reflexivity.
Qed.

(** A step that returns either skipped the instance or added its [info] to
    the summary of its tenant. *)
Lemma usage_step_returns (rval rval' : gmap string (Summary.t F))
    (cache cache' : gmap Z Flavor.t) (inst : instance) (w w' : world) :
  cache_sound cache ->
  usage_step C ctx period_start period_stop detailed (rval, cache) inst w
  = (Returns (rval', cache'), w') ->
  cache_sound cache'
  /\ match resolves inst with
     | None => rval' = rval
     | Some _ =>
         exists info summary,
           usage_of inst info
           /\ accumulate detailed (summary_of rval (project_id inst)) info
              = Returns summary
           /\ rval' = <[project_id inst := summary]> rval
     end.
Proof.
  intros Hsound. unfold usage_step. run_M.
  destruct (_hours_for C inst period_start period_stop) as [h|e] eqn:Hh;
    [|discriminate].
  destruct (_get_flavor C ctx inst cache) as [[o cache1]|e] eqn:Hfl;
    [|discriminate].
  destruct (get_flavor_resolves _ _ _ _ Hsound Hfl) as [-> Hsound1].
  destruct (resolves inst) as [fl|] eqn:Hres.
  2:{ intros [= <- <- <-]. auto. }
  match goal with
  | |- context [lift ?o] => destruct o as [delta|e]
  | |- context [match ?o with Returns _ => _ | Raises _ => _ end] =>
      destruct o as [delta|e]
  end; [|discriminate].
  unfold Report.summary_of.
  destruct (rval !! project_id inst) as [s0|] eqn:Hlk.
  - rewrite Hlk.
    match goal with
    | |- context [accumulate ?d ?s ?i] =>
        destruct (accumulate d s i) as [s1|e] eqn:Hacc
    end; [|discriminate].
    intros [= <- <- <-]. split; [assumption|].
    eexists _, s1. split; [|split; [exact Hacc|reflexivity]].
    repeat split; simpl; try assumption. exists fl. auto.
  - rewrite lookup_insert_eq.
    match goal with
    | |- context [accumulate ?d ?s ?i] =>
        destruct (accumulate d s i) as [s1|e] eqn:Hacc
    end; [|discriminate].
    intros [= <- <- <-]. split; [assumption|].
    eexists _, s1. split; [|split; [exact Hacc|apply insert_insert_eq]].
    repeat split; simpl; try assumption. exists fl. auto.
Qed.

(** *** Totals and the detail list *)

Lemma sum_of_snoc (f : Info.t F -> pynum F) (l : list (Info.t F))
    (info : Info.t F) :
  sum_of f (l ++ [info]) = padd (sum_of f l) (f info).
Proof. unfold Report.sum_of. rewrite fold_left_app. reflexivity. Qed.

Lemma billed_snoc (tenant : string) (instances : list instance)
    (inst : instance) :
  billed tenant (instances ++ [inst])
  = billed tenant instances
    ++ (if decide (project_id inst = tenant /\ is_Some (resolves inst))
        then [inst] else []).
Proof.
  unfold Report.billed. rewrite filter_app. reflexivity.
Qed.

Lemma billed_snoc_other (tenant : string) (instances : list instance)
    (inst : instance) :
  project_id inst <> tenant \/ resolves inst = None ->
  billed tenant (instances ++ [inst]) = billed tenant instances.
Proof.
  intros Hother. rewrite billed_snoc.
  destruct (decide _) as [[Ht [fl Hfl]]|_]; [|apply app_nil_r].
  destruct Hother; congruence.
Qed.

Lemma billed_snoc_same (instances : list instance) (inst : instance) :
  is_Some (resolves inst) ->
  billed (project_id inst) (instances ++ [inst])
  = billed (project_id inst) instances ++ [inst].
Proof.
  intros Hres. rewrite billed_snoc.
  destruct (decide _) as [_|Hno]; [reflexivity|]. destruct Hno. auto.
Qed.

Lemma new_summary_ok (tenant : string) (instances : list instance) :
  billed tenant instances = [] ->
  summary_ok tenant instances
             (new_summary tenant period_start period_stop detailed).
Proof.
  intros Hnone. split; [reflexivity|]. exists []. simpl. rewrite Hnone.
  repeat split; try reflexivity. constructor.
Qed.

Lemma accumulate_ok (instances : list instance) (inst : instance)
    (info : Info.t F) (s s' : Summary.t F) :
  summary_ok (project_id inst) instances s ->
  usage_of inst info ->
  accumulate detailed s info = Returns s' ->
  summary_ok (project_id inst) (instances ++ [inst]) s'.
Proof.
  intros (Hten & l & Hl & Hh & Hv & Hm & Hg & Hall) Hinfo.
  assert (Hres : is_Some (resolves inst)).
  { destruct Hinfo as (_ & _ & _ & fl & Hfl & _). eauto. }
  unfold accumulate, Report.summary_ok. run_M. rewrite Hl.
  destruct detailed; intros [= <-]; (split; [exact Hten|]);
    exists (l ++ [info]); simpl;
    rewrite !sum_of_snoc, billed_snoc_same, Hh, Hv, Hm, Hg by assumption;
    (repeat split; try reflexivity);
    (apply Forall2_app; [assumption|]); constructor; auto.
Qed.

(** The loop keeps its invariant. *)
Lemma usage_step_ok (instances : list instance) (inst : instance)
    (rval rval' : gmap string (Summary.t F)) (cache cache' : gmap Z Flavor.t)
    (w w' : world) :
  rval_ok instances rval -> cache_sound cache ->
  usage_step C ctx period_start period_stop detailed (rval, cache) inst w
  = (Returns (rval', cache'), w') ->
  rval_ok (instances ++ [inst]) rval' /\ cache_sound cache'.
Proof.
  intros Hok Hsound Hstep.
  destruct (usage_step_returns _ _ _ _ _ _ _ Hsound Hstep) as [Hsound' Hcase].
  split; [|assumption]. intros tenant. specialize (Hok tenant) as Hten.
  destruct (resolves inst) as [fl|] eqn:Hres.
  2:{ subst rval'. rewrite billed_snoc_other by auto.
      destruct (rval !! tenant) as [s|]; [|assumption].
      destruct Hten as (? & l & ?). split; [assumption|]. exists l.
      rewrite billed_snoc_other by auto. assumption. }
  destruct Hcase as (info & summary & Hinfo & Hacc & ->).
  destruct (decide (tenant = project_id inst)) as [->|Hne].
  - rewrite lookup_insert_eq.
    apply (accumulate_ok instances inst info _ _) with (3 := Hacc);
      [|assumption].
    unfold Report.summary_of. destruct (rval !! project_id inst) as [s|];
      [assumption|]. apply new_summary_ok. assumption.
  - rewrite lookup_insert_ne by congruence.
    rewrite billed_snoc_other by auto.
    destruct (rval !! tenant) as [s|]; [|assumption].
    destruct Hten as (? & l & ?). split; [assumption|]. exists l.
    rewrite billed_snoc_other by auto. assumption.
Qed.

Lemma for_each_ok (l instances : list instance) (st st' : loop_state)
    (w w' : world) :
  rval_ok instances st.1 -> cache_sound st.2 ->
  for_each (usage_step C ctx period_start period_stop detailed) l st w
  = (Returns st', w') ->
  rval_ok (instances ++ l) st'.1 /\ cache_sound st'.2.
Proof.
  revert instances st w.
  induction l as [|inst l IH]; intros instances st w Hok Hsound; simpl.
  - run_M. intros [= <- <-]. rewrite app_nil_r. auto.
  - run_M. destruct st as [rval cache].
    destruct (usage_step C ctx period_start period_stop detailed
                (rval, cache) inst w) as [[[rval1 cache1]|e] w1] eqn:Hstep;
      [|discriminate].
    intros Hrest.
    destruct (usage_step_ok _ _ _ _ _ _ _ _ Hok Hsound Hstep) as [Hok1 Hs1].
    rewrite (app_assoc instances [inst] l : instances ++ inst :: l = _).
    apply (IH _ (rval1, cache1) w1); assumption.
Qed.

Lemma rval_ok_empty : rval_ok [] ∅.
Proof. intros tenant. rewrite lookup_empty. reflexivity. Qed.

Lemma elem_of_values (rval : gmap string (Summary.t F)) (s : Summary.t F) :
  s ∈ values rval <-> exists tenant, rval !! tenant = Some s.
Proof.
  unfold values. rewrite list_elem_of_fmap. split.
  - intros ([t s'] & -> & Hin). exists t. apply elem_of_map_to_list. exact Hin.
  - intros (t & Hlk). exists (t, s). split; [reflexivity|].
    apply elem_of_map_to_list. exact Hlk.
Qed.

Lemma values_tenants (rval : gmap string (Summary.t F)) :
  (forall tenant s, rval !! tenant = Some s -> Summary.tenant_id s = tenant) ->
  Summary.tenant_id <$> values rval = (map_to_list rval).*1.
Proof.
  intros Hkeys. unfold values.
  assert (Hall : Forall (fun p => Summary.tenant_id p.2 = p.1)
                        (map_to_list rval)).
  { apply Forall_forall. intros [t s] Hin. apply elem_of_map_to_list in Hin.
    simpl. eauto. }
  induction Hall as [|[t s] l Hhd _ IH]; [reflexivity|].
  rewrite !fmap_cons. simpl in Hhd. simpl. rewrite Hhd. f_equal. exact IH.
Qed.

(** What a returned loop says about the list it ran over. *)
Lemma usages_of_instances_ok (instances : list instance)
    (summaries : list (Summary.t F)) (w w' : world) :
  usages_of_instances C ctx period_start period_stop detailed instances w
  = (Returns summaries, w') ->
  (forall s, s ∈ summaries -> summary_ok (Summary.tenant_id s) instances s)
  /\ (forall inst, inst ∈ instances -> is_Some (resolves inst) ->
        exists s, s ∈ summaries /\ Summary.tenant_id s = project_id inst)
  /\ NoDup (Summary.tenant_id <$> summaries).
Proof.
  unfold usages_of_instances. run_M.
  destruct (for_each _ instances ((∅, ∅) : loop_state) w)
    as [[st|e] w1] eqn:Hloop; [|discriminate].
  intros [= <- <-].
  destruct (for_each_ok instances [] ((∅, ∅) : loop_state) st w w1 rval_ok_empty
              cache_sound_empty Hloop) as [Hok _].
  simpl in Hok. split; [|split].
  - intros s Hin. apply elem_of_values in Hin as [t Hlk].
    specialize (Hok t). rewrite Hlk in Hok.
    destruct Hok as [Hten Hrest]. rewrite Hten. split; assumption.
  - intros inst Hin Hres. specialize (Hok (project_id inst)).
    destruct (st.1 !! project_id inst) as [s|] eqn:Hlk.
    + exists s. split; [apply elem_of_values; eauto|]. apply Hok.
    + exfalso. assert (Hb : inst ∈ billed (project_id inst) instances).
      { unfold Report.billed. apply list_elem_of_filter. auto. }
      rewrite Hok in Hb. inversion Hb.
  - rewrite values_tenants; [apply NoDup_fst_map_to_list|].
    intros t s Hlk. specialize (Hok t). rewrite Hlk in Hok. apply Hok.
Qed.

(** C2.  In every summary that the aggregator returns, [total_hours] is the
    sum of [hours] over the summary's entries, and the vcpus, memory and disk
    totals are the sums of hours times the shape attribute over the same
    entries (the entries are stored as [server_usages] in detailed mode).
    The entries are exactly those of the tenant's instances whose flavor
    resolved, one per instance in processing order; every such instance has
    its tenant's summary, and no tenant has two. *)
Theorem tenant_totals_are_sums (tenant_id : option string)
    (summaries : list (Summary.t F)) (w w' : world) :
  _tenant_usages_for_period C ctx period_start period_stop tenant_id detailed w
  = (Returns summaries, w') ->
  let instances :=
    get_active_by_window C ctx period_start period_stop tenant_id in
  (forall s, s ∈ summaries ->
     exists l,
       Summary.server_usages s = (if detailed then Some l else None)
       /\ Summary.total_hours s = sum_of Info.hours l
       /\ Summary.total_vcpus_usage s = sum_of vcpus_hours l
       /\ Summary.total_memory_mb_usage s = sum_of memory_mb_hours l
       /\ Summary.total_local_gb_usage s = sum_of local_gb_hours l
       /\ Forall2 usage_of (billed (Summary.tenant_id s) instances) l)
  /\ (forall inst, inst ∈ instances -> is_Some (resolves inst) ->
        exists s, s ∈ summaries /\ Summary.tenant_id s = project_id inst)
  /\ NoDup (Summary.tenant_id <$> summaries).
Proof.
  intros Hrun instances. subst instances.
  unfold _tenant_usages_for_period, active_by_window in Hrun. run_M.
  destruct (usages_of_instances_ok _ _ _ _ Hrun) as (Hsum & Hall & Hdup).
  split; [|split; assumption].
  intros s Hin. apply (Hsum s Hin).
Qed.

(** *** Instances whose flavor is not found *)

Lemma for_each_app {A S : Type} (body : S -> A -> M S) (l1 l2 : list A)
    (s : S) (w : world) :
  for_each body (l1 ++ l2) s w
  = match for_each body l1 s w with
    | (Returns s', w') => for_each body l2 s' w'
    | (Raises e, w') => (Raises e, w')
    end.
Proof.
  revert s w. induction l1 as [|x l1 IH]; intros s w; simpl; [reflexivity|].
  run_M. destruct (body s x w) as [[s1|e] w1]; [apply IH|reflexivity].
Qed.

Lemma for_each_cache_sound (l : list instance) (st st' : loop_state)
    (w w' : world) :
  cache_sound st.2 ->
  for_each (usage_step C ctx period_start period_stop detailed) l st w
  = (Returns st', w') ->
  cache_sound st'.2.
Proof.
  revert st w. induction l as [|inst l IH]; intros st w Hsound; simpl.
  - run_M. intros [= <- <-]. assumption.
  - run_M. destruct st as [rval cache].
    destruct (usage_step C ctx period_start period_stop detailed
                (rval, cache) inst w) as [[[rval1 cache1]|e] w1] eqn:Hstep;
      [|intros [=]].
    apply (IH (rval1, cache1)).
    apply (usage_step_returns _ _ _ _ _ _ _ Hsound Hstep).
Qed.

(** The loop does not see an instance whose legacy lookup fails. *)
Lemma for_each_flavor_not_found (pre post : list instance) (inst : instance)
    (h : pynum F) (w : world) :
  extract_flavor C inst = None ->
  deleted inst = true ->
  get_instance_type C ctx (instance_type_id inst) = None ->
  _hours_for C inst period_start period_stop = Returns h ->
  for_each (usage_step C ctx period_start period_stop detailed)
           (pre ++ inst :: post) ((∅, ∅) : loop_state) w
  = for_each (usage_step C ctx period_start period_stop detailed)
             (pre ++ post) ((∅, ∅) : loop_state) w.
Proof.
  intros Hext Hdel Hcat Hh. rewrite !for_each_app.
  destruct (for_each _ pre _ w) as [[[rval cache]|e] w1] eqn:Hpre;
    [|reflexivity].
  assert (Hsound : cache_sound cache).
  { apply (for_each_cache_sound pre (∅, ∅) (rval, cache) w w1);
      [apply cache_sound_empty|exact Hpre]. }
  cbn [for_each]. unfold mbind at 1, M_bind at 1.
  rewrite (usage_step_skip rval cache cache inst h w1 Hh).
  - reflexivity.
  - apply get_flavor_not_found; assumption.
Qed.

(** C5.  An instance whose legacy catalog lookup fails (no embedded flavor,
    marked deleted, flavor unknown to the catalog) is left out of the report:
    the aggregator behaves exactly as on the lookup result without that
    instance, so it adds to no total, has no entry in any detail list, and
    raises nothing. *)
Theorem flavor_not_found_excluded (tenant_id : option string)
    (pre post : list instance) (inst : instance) (h : pynum F) (w : world) :
  get_active_by_window C ctx period_start period_stop tenant_id
  = pre ++ inst :: post ->
  _hours_for C inst period_start period_stop = Returns h ->
  extract_flavor C inst = None ->
  deleted inst = true ->
  get_instance_type C ctx (instance_type_id inst) = None ->
  _tenant_usages_for_period C ctx period_start period_stop tenant_id detailed w
  = usages_of_instances C ctx period_start period_stop detailed (pre ++ post)
      {| clock_reads := clock_reads w;
         lookups := lookups w ++ [(period_start, period_stop, tenant_id)] |}.
Proof.
  intros Hfound Hh Hext Hdel Hcat.
  unfold _tenant_usages_for_period, active_by_window, usages_of_instances.
  unfold mbind at 1, M_bind at 1. rewrite Hfound.
  unfold mbind, M_bind.
  rewrite (for_each_flavor_not_found pre post inst h _ Hext Hdel Hcat Hh).
  reflexivity.
Qed.

(** *** Instances that were never launched *)

Lemma ts_sub_None (a : pyts) : ts_sub a TNone = Raises TypeError.
Proof. destruct a; reflexivity. Qed.

(** An instance without a launch time whose flavor resolves stops the loop:
    the uptime subtracts [None]. *)
Lemma usage_step_never_launched (rval : gmap string (Summary.t F))
    (cache cache' : gmap Z Flavor.t) (inst : instance) (h : pynum F)
    (fl : Flavor.t) (w : world) :
  launched_at inst = TNone ->
  _hours_for C inst period_start period_stop = Returns h ->
  _get_flavor C ctx inst cache = Returns (Some fl, cache') ->
  usage_step C ctx period_start period_stop detailed (rval, cache) inst w
  = (Raises TypeError,
     {| clock_reads := S (clock_reads w); lookups := lookups w |}).
Proof.
  intros Hnone Hh Hfl. unfold usage_step. run_M. rewrite Hh, Hfl, Hnone.
  rewrite !ts_sub_None. destruct (String.eqb _ _); reflexivity.
Qed.
End Aggregator.

End AggregatorFacts.

(** ** The request handlers *)

Module HandlerFacts.
Import SimpleTenantUsageController Report.

Section Handlers.
Context {F : Type} `{FloatOps F}.
Variable C : collaborators.

Ltac run_M :=
  unfold mbind, M_bind, mret, M_ret, lift, raise, check, outcome_bind,
    outcome_ret in *; simpl in *.

(** Parsing only reads the clock. *)
Lemma parse_datetime_lookups (dtstr : pyts) (w : world) :
  lookups (_parse_datetime C dtstr w).2 = lookups w.
Proof.
  unfold _parse_datetime. destruct dtstr as [|t|s]; simpl; try reflexivity.
  destruct (negb (String.eqb s EmptyString)); reflexivity.
Qed.

Lemma get_datetime_range_lookups (req : request C) (w : world) :
  lookups (_get_datetime_range C req w).2 = lookups w.
Proof.
  unfold _get_datetime_range. run_M.
  destruct (query_value _ "start" TNone) as [sv|e]; [|reflexivity].
  pose proof (parse_datetime_lookups sv w) as Hs.
  destruct (_parse_datetime C sv w) as [[[ps|]|e] w1]; simpl in Hs;
    try assumption.
  destruct (query_value _ "end" TNone) as [ev|e]; [|assumption].
  pose proof (parse_datetime_lookups ev w1) as He.
  destruct (_parse_datetime C ev w1) as [[[pe|]|e] w2]; simpl in *;
    try congruence.
  destruct (negb (ps <? pe)); simpl; [congruence|].
  destruct (query_value _ "detailed" _); simpl; congruence.
Qed.

(** The loop only reads the clock. *)
Lemma usage_step_lookups (ctx : context C) (period_start period_stop : datetime)
    (detailed : bool) (st : loop_state) (inst : instance) (w : world) :
  lookups (usage_step C ctx period_start period_stop detailed st inst w).2
  = lookups w.
Proof.
  unfold usage_step. destruct st as [rval cache]. run_M.
  destruct (_hours_for C inst period_start period_stop); [|reflexivity].
  destruct (_get_flavor C ctx inst cache) as [[[fl|] cache1]|e];
    try reflexivity.
  match goal with
  | |- context [match ?o with Returns _ => _ | Raises _ => _ end] =>
      destruct o as [delta|e]
  end; [|reflexivity].
  match goal with
  | |- context [match ?m !! ?k with Some _ => _ | None => _ end] =>
      destruct (m !! k) as [s|]
  end; [|reflexivity].
  match goal with
  | |- context [accumulate ?d ?s ?i] => destruct (accumulate d s i)
  end; reflexivity.
Qed.

Lemma for_each_lookups (ctx : context C) (period_start period_stop : datetime)
    (detailed : bool) (l : list instance) (st : loop_state) (w : world) :
  lookups (for_each (usage_step C ctx period_start period_stop detailed)
                    l st w).2
  = lookups w.
Proof.
  revert st w. induction l as [|inst l IH]; intros st w; simpl;
    [reflexivity|].
  run_M. pose proof (usage_step_lookups ctx period_start period_stop detailed
                       st inst w) as Hstep.
  destruct (usage_step C ctx period_start period_stop detailed st inst w)
    as [[st1|e] w1]; simpl in Hstep; [|assumption].
  rewrite IH. assumption.
Qed.

(** The aggregator looks the instances up once, with the window it is
    given. *)
Lemma tenant_usages_lookups (ctx : context C)
    (period_start period_stop : datetime) (tenant_id : option string)
    (detailed : bool) (w : world) :
  lookups (_tenant_usages_for_period C ctx period_start period_stop
             tenant_id detailed w).2
  = lookups w ++ [(period_start, period_stop, tenant_id)].
Proof.
  unfold _tenant_usages_for_period, usages_of_instances, active_by_window.
  run_M.
  match goal with
  | |- context [for_each ?b ?l ?s ?w0] =>
      pose proof (for_each_lookups ctx period_start period_stop detailed
                    l s w0) as Hloop;
      destruct (for_each b l s w0) as [[st|e] w1]
  end; simpl in *; assumption.
Qed.


#[local] Arguments _get_datetime_range : simpl never.
#[local] Arguments _tenant_usages_for_period : simpl never.

(** The handlers once the policy check has passed. *)
Lemma index_authorized (req : request C) (w : world) :
  authorize_list C (nova_context req) = true ->
  index (F := F) C req w
  = match _get_datetime_range C req w with
    | (Returns (period_start, period_stop, detailed), w1) =>
        let now := utcnow_at C (clock_reads w1) in
        _tenant_usages_for_period C (nova_context req) period_start
          (if period_stop >? now then now else period_stop) None detailed
          (tick w1)
    | (Raises e, w1) => (Raises e, w1)
    end.
Proof.
  intros Hauth. unfold index. run_M. rewrite Hauth. run_M.
  destruct (_get_datetime_range C req w) as [[[[ps pe] d]|e] w1];
    reflexivity.
Qed.

Lemma show_authorized (req : request C) (id : string) (w : world) :
  authorize_show C (nova_context req) id = true ->
  show (F := F) C req id w
  = match _get_datetime_range C req w with
    | (Returns (period_start, period_stop, _), w1) =>
        let now := utcnow_at C (clock_reads w1) in
        let (r, w2) :=
          _tenant_usages_for_period C (nova_context req) period_start
            (if period_stop >? now then now else period_stop) (Some id) true
            (tick w1) in
        (match r with
         | Returns (u :: _) => Returns (Some u)
         | Returns [] => Returns None
         | Raises e => Raises e
         end, w2)
    | (Raises e, w1) => (Raises e, w1)
    end.
Proof.
  intros Hauth. unfold show. run_M. rewrite Hauth. run_M.
  destruct (_get_datetime_range C req w) as [[[[ps pe] d]|e] w1];
    [|reflexivity].
  fold (tick w1).
  destruct (_tenant_usages_for_period _ _ _ _ _ _ _) as [[[|u l]|e] w2];
    reflexivity.
Qed.

(** C6.  When the parsed start is not strictly before the parsed end, the
    range check raises the bad-request error "start after end"; so do [index]
    and [show] once their policy check has passed, and no instance lookup
    has been made by then. *)
Theorem start_not_before_end_rejected (req : request C) (id : string)
    (w w1 w2 : world) (start_value end_value : pyts) (s e : datetime) :
  let env := parse_qs C (match QUERY_STRING req with
                         | Some q => q
                         | None => EmptyString
                         end) in
  query_value env "start" TNone = Returns start_value ->
  _parse_datetime C start_value w = (Returns (Some s), w1) ->
  query_value env "end" TNone = Returns end_value ->
  _parse_datetime C end_value w1 = (Returns (Some e), w2) ->
  ~ s < e ->
  _get_datetime_range C req w = (Raises (HTTPBadRequest StartAfterEnd), w2)
  /\ (authorize_list C (nova_context req) = true ->
      index (F := F) C req w = (Raises (HTTPBadRequest StartAfterEnd), w2))
  /\ (authorize_show C (nova_context req) id = true ->
      show (F := F) C req id w = (Raises (HTTPBadRequest StartAfterEnd), w2))
  /\ lookups w2 = lookups w.
Proof.
  intros env Hsv Hs Hev He Hnot.
  assert (Hrange : _get_datetime_range C req w
                   = (Raises (HTTPBadRequest StartAfterEnd), w2)).
  { unfold _get_datetime_range. fold env.
    unfold mbind, M_bind, lift, raise. rewrite Hsv, Hs, Hev, He.
    destruct (Z.ltb_spec s e); [lia|reflexivity]. }
  split; [exact Hrange|]. split; [|split].
  - intros Hauth. rewrite (index_authorized req w Hauth), Hrange. reflexivity.
  - intros Hauth. rewrite (show_authorized req id w Hauth), Hrange.
    reflexivity.
  - pose proof (get_datetime_range_lookups req w) as Hl.
    rewrite Hrange in Hl. exact Hl.
Qed.

(** C7.  When the stop of the parsed window is after the current time, [index]
    and [show] run the aggregator on the window that stops at the current
    time: that window is the one the instance lookup is called with (the
    only lookup of the request) and the one the hours are computed for. *)
Theorem future_stop_clipped (req : request C) (id : string) (w w1 : world)
    (period_start period_stop : datetime) (detailed : bool) :
  _get_datetime_range C req w
  = (Returns (period_start, period_stop, detailed), w1) ->
  let now := utcnow_at C (clock_reads w1) in
  now < period_stop ->
  (authorize_list C (nova_context req) = true ->
   index (F := F) C req w
   = _tenant_usages_for_period C (nova_context req) period_start now None
       detailed (tick w1)
   /\ lookups (index (F := F) C req w).2
      = lookups w ++ [(period_start, now, None)])
  /\ (authorize_show C (nova_context req) id = true ->
      show (F := F) C req id w
      = (let (r, w') :=
           _tenant_usages_for_period C (nova_context req) period_start now
             (Some id) true (tick w1) in
         (match r with
          | Returns (u :: _) => Returns (Some u)
          | Returns [] => Returns None
          | Raises e => Raises e
          end, w'))
      /\ lookups (show (F := F) C req id w).2
         = lookups w ++ [(period_start, now, Some id)]).
Proof.
  intros Hrange now Hfuture.
  assert (Hgt : (period_stop >? now) = true) by (apply Z.gtb_lt; lia).
  pose proof (get_datetime_range_lookups req w) as Hl.
  rewrite Hrange in Hl. simpl in Hl.
  split; intros Hauth.
  - rewrite (index_authorized req w Hauth), Hrange. cbv zeta. fold now.
    rewrite Hgt. split; [reflexivity|].
    rewrite tenant_usages_lookups. simpl. rewrite Hl. reflexivity.
  - rewrite (show_authorized req id w Hauth), Hrange. cbv zeta. fold now.
    rewrite Hgt. split; [reflexivity|].
    pose proof (tenant_usages_lookups (nova_context req) period_start now
                  (Some id) true (tick w1)) as Hlk.
    destruct (_tenant_usages_for_period _ _ _ _ _ _ _) as [r w'].
    simpl in *. rewrite Hlk, Hl. reflexivity.
Qed.

(** C8.  [show] for a tenant for which the lookup finds no instance returns
    the empty usage (the empty dict), not an error. *)
Theorem show_no_instances_empty (req : request C) (id : string) (w w1 : world)
    (period_start period_stop : datetime) (ignore : bool) :
  authorize_show C (nova_context req) id = true ->
  _get_datetime_range C req w
  = (Returns (period_start, period_stop, ignore), w1) ->
  let now := utcnow_at C (clock_reads w1) in
  let stop := if period_stop >? now then now else period_stop in
  get_active_by_window C (nova_context req) period_start stop (Some id) = [] ->
  show (F := F) C req id w
  = (Returns None, looked_up (tick w1) period_start stop (Some id)).
Proof.
  intros Hauth Hrange now stop Hnone.
  rewrite (show_authorized req id w Hauth), Hrange. cbv zeta. fold now.
  fold stop.
  unfold _tenant_usages_for_period, active_by_window, usages_of_instances.
  run_M. rewrite Hnone. simpl. unfold values. rewrite map_to_list_empty.
  reflexivity.
Qed.

End Handlers.

End HandlerFacts.

(** ** The properties on the concrete deployment *)

Module Witnesses.
Import SimpleTenantUsageController Report Entries Demo.
Import HoursFacts AggregatorFacts HandlerFacts.


(** [batch] ended on the first day; the window is the second day. *)
Lemma hours_for_zero_witness :
  _hours_for (F := PrimFloat.float) D batch jan2 jan3 = Returns (PInt 0).
Proof.
  apply (hours_for_zero D batch jan2 jan3
           (Some (at_time 734868 0 0 0 0))
           (Some (at_time 734869 12 0 0 0))).
  - reflexivity.
  - reflexivity.
  - left. exists (at_time 734869 12 0 0 0). split; reflexivity.
Defined.

(** [batch], launched the day before and ended at noon, is billed a
    non-negative amount for the first day. *)
Lemma hours_for_nonneg_witness :
  exists v : pynum PrimFloat.float,
    _hours_for D batch jan1 jan2 = Returns v /\ nonneg v.
Proof.
  apply (hours_for_nonneg D (FO := binary64_order) batch jan1 jan2
           (Some (at_time 734868 0 0 0 0))
           (Some (at_time 734869 12 0 0 0))).
  - reflexivity.
  - reflexivity.
  - intros l t [= <-] [= <-]. vm_compute. discriminate.
  - reflexivity.
Defined.

(** The report of the first day, all tenants, detailed. *)
Lemma tenant_totals_are_sums_witness :
  exists summaries w',
    _tenant_usages_for_period (F := PrimFloat.float) D tt jan1 jan2 None true w0
    = (Returns summaries, w')
    /\ length summaries = 2%nat
    /\ NoDup (Summary.tenant_id <$> summaries)
    /\ forall s, s ∈ summaries ->
         exists l, Summary.server_usages s = Some l
                   /\ Summary.total_hours s = sum_of Info.hours l.
Proof.
  destruct (_tenant_usages_for_period (F := PrimFloat.float) D tt jan1 jan2
              None true w0) as [[summaries|e] w'] eqn:Hrun.
  - exists summaries, w'. split; [reflexivity|].
    split; [vm_compute in Hrun; injection Hrun as <- _; reflexivity|].
    destruct (tenant_totals_are_sums D tt jan1 jan2 true None summaries w0 w'
                Hrun) as (Hsum & _ & Hdup).
    split; [exact Hdup|]. intros s Hin.
    destruct (Hsum s Hin) as (l & Hl & Hh & _). exists l. split; assumption.
  - vm_compute in Hrun. discriminate Hrun.
Defined.

(** [ghost] is deleted and its flavor is gone: the report is that of the
    other three instances. *)
Lemma flavor_not_found_excluded_witness :
  _tenant_usages_for_period (F := PrimFloat.float) D tt jan1 jan2 None true w0
  = usages_of_instances D tt jan1 jan2 true ([web; batch; db] ++ [])
      {| clock_reads := 0; lookups := [(jan1, jan2, None)] |}.
Proof.
  apply (flavor_not_found_excluded D tt jan1 jan2 true None
           [web; batch; db] [] ghost (PFloat 1%float) w0);
    reflexivity.
Defined.

(** A request for a window that ends before it starts. *)
Lemma start_not_before_end_rejected_witness :
  let req := request_of D tt inverted_query in
  _get_datetime_range D req w0 = (Raises (HTTPBadRequest StartAfterEnd), w0)
  /\ index (F := PrimFloat.float) D req w0
     = (Raises (HTTPBadRequest StartAfterEnd), w0)
  /\ show (F := PrimFloat.float) D req "acme" w0
     = (Raises (HTTPBadRequest StartAfterEnd), w0).
Proof.
  intros req.
  destruct (start_not_before_end_rejected (F := PrimFloat.float) D req "acme"
              w0 w0 w0 (TStr "2013-01-02T00:00:00")
              (TStr "2013-01-01T00:00:00") jan2 jan1)
    as (Hrange & Hindex & Hshow & _).
  - reflexivity.
  - reflexivity.
  - reflexivity.
  - reflexivity.
  - intros Hlt. vm_compute in Hlt. discriminate Hlt.
  - split; [exact Hrange|].
    split; [apply Hindex|apply Hshow]; reflexivity.
Defined.

(** A request for two days when only the first has passed. *)
Lemma future_stop_clipped_witness :
  let req := request_of D tt two_days_query in
  lookups (index (F := PrimFloat.float) D req w0).2 = [(jan1, jan2, None)]
  /\ lookups (show (F := PrimFloat.float) D req "acme" w0).2
     = [(jan1, jan2, Some "acme"%string)].
Proof.
  intros req.
  destruct (future_stop_clipped (F := PrimFloat.float) D req "acme" w0 w0
              jan1 jan3 false)
    as (Hindex & Hshow).
  - reflexivity.
  - reflexivity.
  - split.
    + apply Hindex. reflexivity.
    + apply Hshow. reflexivity.
Defined.

(** A tenant without instances. *)
Lemma show_no_instances_empty_witness :
  show (F := PrimFloat.float) D (request_of D tt day_query) "nobody" w0
  = (Returns None,
     {| clock_reads := 1; lookups := [(jan1, jan2, Some "nobody"%string)] |}).
Proof.
  apply (show_no_instances_empty (F := PrimFloat.float) D
           (request_of D tt day_query) "nobody" w0 w0 jan1 jan2 false);
    reflexivity.
Defined.

End Witnesses.

(** ** Where the controller and its specification part *)

Module Divergences.
Import SimpleTenantUsageController Report Demo.

(** Testable property 9 of the specification, in binary64: launched at 06:00,
    never terminated, a window of one day: 18.0 hours. *)
Example eighteen_hours :
  _hours_for (deployment [web] jan2) web jan1 jan2
  = Returns (PFloat 18%float).
Proof. vm_compute. reflexivity. Qed.

(** C4, not met by the code.  On a window of half a second, an instance
    launched with the window and never terminated is charged [5/3600] hours,
    ten times the window's length of [0.5/3600] hours, in binary64 as in
    exact arithmetic; [hours_for_whole_seconds] is the case that holds. *)
Theorem hours_for_half_second_window :
  let C := deployment [steady] jan2 in
  let stop := jan1 + 500000 in
  launched_at steady = TDatetime jan1
  /\ terminated_at steady = TNone
  /\ _hours_for (F := PrimFloat.float) C steady jan1 stop
     = Returns (PFloat (fdiv (of_int 5) (of_int 3600)))
  /\ PrimFloat.eqb (fdiv (of_int 5) (of_int 3600))
                   (duration_hours jan1 stop) = false
  /\ exists q : Q,
       _hours_for (F := Q) C steady jan1 stop = Returns (PFloat q)
       /\ (q == 10 * duration_hours jan1 stop)%Q
       /\ ~ (q == duration_hours jan1 stop)%Q.
Proof.
  intros C stop. repeat split; try (vm_compute; reflexivity).
  eexists. split; [vm_compute; reflexivity|].
  split; [reflexivity|]. intros Heq. vm_compute in Heq. discriminate Heq.
Qed.

(** C10, not met by the code.  For an instance that was never launched and
    whose flavor resolves, the hours are [0], and the aggregator then raises
    [TypeError] when it subtracts the missing launch time for the uptime: no
    report is returned ([usage_step_never_launched] is the general step). *)
Theorem never_launched_raises :
  let C := deployment [web; unborn] jan2 in
  launched_at unborn = TNone
  /\ extract_flavor C unborn = Some m1_small
  /\ _hours_for (F := PrimFloat.float) C unborn jan1 jan2 = Returns (PInt 0)
  /\ _tenant_usages_for_period (F := PrimFloat.float) C tt jan1 jan2 None true
       w0
     = (Raises TypeError,
        {| clock_reads := 2; lookups := [(jan1, jan2, None)] |}).
Proof. intros C. repeat split; vm_compute; reflexivity. Qed.

End Divergences.

(** ** Records with text that does not parse *)

Module Unreadable.
Import SimpleTenantUsageController Report Entries Demo MoreDemo.

(** C3 as first stated fails: a record that was never launched, whose
    [terminated_at] is text outside the layout, is not charged [0]; the
    calculator raises [ValueError] at line 43. *)
Lemma hours_for_zero_counterexample :
  launched_at undated = TNone
  /\ _hours_for (F := PrimFloat.float) D undated jan1 jan2 = Raises ValueError
  /\ _hours_for (F := PrimFloat.float) D undated jan1 jan2
     <> Returns (PInt 0).
Proof.
  split; [reflexivity|]. split; [reflexivity|].
  intros Heq. vm_compute in Heq. discriminate Heq.
Qed.

(** C9 as first stated fails: the same record has no launch time, so its
    timestamps are in order, and on the non-empty window of the second day
    the calculator returns nothing, negative or not. *)
Lemma hours_for_nonneg_counterexample :
  launched_at undated = TNone
  /\ jan2 < jan3
  /\ ~ exists v : pynum PrimFloat.float,
         _hours_for D undated jan2 jan3 = Returns v /\ nonneg v.
Proof.
  split; [reflexivity|]. split; [reflexivity|].
  intros (v & Heq & _). vm_compute in Heq. discriminate Heq.
Qed.

End Unreadable.

(** * Further properties of the controller *)

(** ** The hours calculator: errors and clipping *)

Module HoursEdgeFacts.
Import SimpleTenantUsageController Report Entries HoursFacts.

Section HoursEdge.
Context {F : Type} `{FloatOps F}.
Variable C : collaborators.

Lemma as_datetime_outcome (v : pyts) :
  (as_datetime C v = Raises ValueError /\ unreadable C v)
  \/ ((exists o, as_datetime C v = Returns o) /\ ~ unreadable C v).
Proof.
  destruct v as [|t|s]; simpl.
  - right. split; [eauto|]. intros (s & Hs & _). discriminate.
  - right. split; [eauto|]. intros (s & Hs & _). discriminate.
  - destruct (parse_strtime C s _) as [t|] eqn:Hp.
    + right. split; [eauto|]. intros (s' & [= <-] & Hnone). congruence.
    + left. split; [reflexivity|]. exists s. auto.
Qed.

(** X1.  The calculator raises exactly when a timestamp field is text that
    does not parse, and then it raises [ValueError]; in every other case it
    returns a number. *)
Theorem hours_for_outcome (inst : instance)
    (period_start period_stop : datetime) :
  (_hours_for C inst period_start period_stop = Raises ValueError
   /\ (unreadable C (terminated_at inst) \/ unreadable C (launched_at inst)))
  \/ ((exists v, _hours_for C inst period_start period_stop = Returns v)
      /\ ~ unreadable C (terminated_at inst)
      /\ ~ unreadable C (launched_at inst)).
Proof.
  unfold _hours_for, mbind, outcome_bind.
  destruct (as_datetime_outcome (terminated_at inst))
    as [[-> Ht] | [[t ->] Ht]]; [left; auto|].
  destruct (as_datetime_outcome (launched_at inst))
    as [[-> Hl] | [[l ->] Hl]]; [left; auto|].
  right. split; [|auto].
  destruct (match t with Some _ => _ | None => _ end); [eauto|].
  destruct (match l with Some _ => _ | None => _ end); [eauto|].
  destruct l; eauto.
Qed.

(** X2.  An instance that covers the window (launched at or before its start,
    and still running or terminated at or after its stop) is charged for the
    window alone: [(d*86400 + s + m/100000) / 3600] hours for the window's
    own timedelta of [d] days, [s] seconds and [m] microseconds, whatever
    the launch and termination times are. *)
Theorem hours_for_spanning (inst : instance)
    (period_start period_stop l : datetime) (terminated : option datetime)
    (d s m : Z) :
  reads_as C (terminated_at inst) terminated ->
  reads_as C (launched_at inst) (Some l) ->
  period_start <= period_stop ->
  l <= period_start ->
  (forall t, terminated = Some t -> period_stop <= t) ->
  dt_sub period_stop period_start
  = {| days := d; seconds := s; microseconds := m |} ->
  _hours_for C inst period_start period_stop
  = Returns (PFloat (fdiv (fadd (of_int (d * 86400 + s))
                                (fdiv (of_int m) (of_int 100000)))
                          (of_int 3600))).
Proof.
  intros Ht Hl Hwin Hstart Hstop Hdt. apply reads_as_datetime in Ht, Hl.
  rewrite (hours_for_billed C inst period_start period_stop l terminated Ht Hl).
  - assert (Hint : dt_sub (effective_stop terminated period_stop)
                          (effective_start l period_start)
                   = dt_sub period_stop period_start).
    { unfold effective_start, effective_stop.
      rewrite Z.max_r by assumption.
      destruct terminated as [t|].
      - specialize (Hstop t eq_refl). rewrite Z.min_l by assumption.
        reflexivity.
      - rewrite Z.min_id. reflexivity. }
    rewrite Hint, Hdt. unfold elapsed_seconds; simpl.
    replace (d * 3600 * 24 + s) with (d * 86400 + s) by lia. reflexivity.
  - intros t Heq. specialize (Hstop t Heq). lia.
  - lia.
Qed.

End HoursEdge.

End HoursEdgeFacts.

(** ** Flavor resolution and the instances that stop a report *)

Module AggregatorEdgeFacts.
Import SimpleTenantUsageController Report Entries AggregatorFacts.

Section AggregatorEdge.
Context {F : Type} `{FloatOps F}.
Variable C : collaborators.
Variable ctx : context C.
Variables period_start period_stop : datetime.
Variable detailed : bool.

Ltac run_M :=
  unfold mbind, M_bind, mret, M_ret, lift, raise, outcome_bind, outcome_ret
    in *; simpl in *.


(** A flavor that resolves is returned, from a sound cache, unless the
    instance is one the fallback is refused to. *)
Lemma get_flavor_returns (inst : instance) (cache : gmap Z Flavor.t)
    (fl : Flavor.t) :
  cache_sound C ctx cache ->
  resolves C ctx inst = Some fl ->
  is_Some (extract_flavor C inst) \/ deleted inst = true ->
  exists cache', _get_flavor C ctx inst cache = Returns (Some fl, cache').
Proof.
  intros Hsound Hres Hok. unfold _get_flavor, resolves in *.
  destruct (extract_flavor C inst) as [fl0|].
  { injection Hres as <-. eauto. }
  destruct Hok as [[x Hx]|Hdel]; [discriminate Hx|]. rewrite Hdel. simpl.
  destruct (cache !! instance_type_id inst) as [fl0|] eqn:Hhit.
  { rewrite (Hsound _ _ Hhit) in Hres. injection Hres as <-. eauto. }
  rewrite Hres. eauto.
Qed.

(** The loop behind a report that was returned. *)
Lemma usages_of_instances_returned (instances : list instance)
    (summaries : list (Summary.t F)) (w w1 : world) :
  usages_of_instances C ctx period_start period_stop detailed instances w
  = (Returns summaries, w1) ->
  exists st,
    for_each (usage_step C ctx period_start period_stop detailed) instances
             ((∅, ∅) : loop_state) w
    = (Returns st, w1)
    /\ summaries = values st.1.
Proof.
  unfold usages_of_instances. run_M.
  destruct (for_each _ instances _ w) as [[st|e] w'] eqn:Hloop;
    [|discriminate].
  intros [= <- <-]. eauto.
Qed.

(** An instance on which the loop body raises ends the report with that
    exception, whatever follows it. *)
Lemma usages_of_instances_raise (pre post : list instance) (inst : instance)
    (st : loop_state) (e : exn) (w w1 w2 : world) :
  for_each (usage_step C ctx period_start period_stop detailed) pre
           ((∅, ∅) : loop_state) w
  = (Returns st, w1) ->
  usage_step C ctx period_start period_stop detailed st inst w1
  = (Raises e, w2) ->
  usages_of_instances C ctx period_start period_stop detailed
    (pre ++ inst :: post) w
  = (Raises e, w2).
Proof.
  intros Hpre Hstep. unfold usages_of_instances.
  unfold mbind at 1, M_bind at 1. rewrite for_each_app, Hpre.
  cbn [for_each]. unfold mbind at 1, M_bind at 1. rewrite Hstep.
  reflexivity.
Qed.

(** X4.  An instance that is not deleted and carries no embedded flavor ends
    the report with [KeyError]: when the instances before it were processed,
    the aggregator raises it at that instance, whatever follows. *)
Theorem missing_flavor_aborts (pre post : list instance) (inst : instance)
    (summaries : list (Summary.t F)) (h : pynum F) (w w1 : world) :
  usages_of_instances C ctx period_start period_stop detailed pre w
  = (Returns summaries, w1) ->
  _hours_for C inst period_start period_stop = Returns h ->
  extract_flavor C inst = None ->
  deleted inst = false ->
  usages_of_instances C ctx period_start period_stop detailed
    (pre ++ inst :: post) w
  = (Raises KeyError, w1).
Proof.
  intros Hpre Hh Hext Hdel.
  destruct (usages_of_instances_returned _ _ _ _ Hpre) as (st & Hloop & _).
  apply (usages_of_instances_raise pre post inst st KeyError w w1 w1 Hloop).
  destruct st as [rval cache]. unfold usage_step, _get_flavor. run_M.
  rewrite Hh, Hext, Hdel. reflexivity.
Qed.

Lemma ts_sub_not_datetime (a b : pyts) :
  (forall t, b <> TDatetime t) -> ts_sub a b = Raises TypeError.
Proof.
  intros Hb. destruct a, b; try reflexivity. destruct (Hb t0 eq_refl).
Qed.

#[local] Arguments ts_sub : simpl never.

(** X5.  An instance whose flavor resolves but whose [launched_at] is not a
    [datetime] (it is [None], or text, which the hours calculator accepts)
    ends the report with [TypeError] after one reading of the clock: the
    uptime cannot be computed. *)
Theorem launch_not_datetime_aborts (pre post : list instance)
    (inst : instance) (summaries : list (Summary.t F)) (h : pynum F)
    (fl : Flavor.t) (w w1 : world) :
  usages_of_instances C ctx period_start period_stop detailed pre w
  = (Returns summaries, w1) ->
  _hours_for C inst period_start period_stop = Returns h ->
  resolves C ctx inst = Some fl ->
  is_Some (extract_flavor C inst) \/ deleted inst = true ->
  (forall t, launched_at inst <> TDatetime t) ->
  usages_of_instances C ctx period_start period_stop detailed
    (pre ++ inst :: post) w
  = (Raises TypeError, tick w1).
Proof.
  intros Hpre Hh Hres Hok Hlaunch.
  destruct (usages_of_instances_returned _ _ _ _ Hpre) as (st & Hloop & _).
  apply (usages_of_instances_raise pre post inst st TypeError w w1 _ Hloop).
  destruct st as [rval cache].
  assert (Hsound : cache_sound C ctx cache).
  { apply (for_each_cache_sound C ctx period_start period_stop detailed pre
             (∅, ∅) (rval, cache) w w1);
      [apply cache_sound_empty|exact Hloop]. }
  destruct (get_flavor_returns inst cache fl Hsound Hres Hok) as [cache' Hfl].
  unfold usage_step. run_M. rewrite Hh, Hfl.
  rewrite !(ts_sub_not_datetime _ _ Hlaunch).
  destruct (String.eqb _ _); reflexivity.
Qed.

End AggregatorEdge.

End AggregatorEdgeFacts.

(** ** What a returned report contains *)

Module ReportEdgeFacts.
Import SimpleTenantUsageController Report Entries AggregatorFacts.
Import AggregatorEdgeFacts.

(** The whole seconds of a difference, as the uptime composes them. *)
Lemma dt_sub_whole_seconds (a b : datetime) :
  days (dt_sub b a) * 24 * 3600 + seconds (dt_sub b a)
  = whole_seconds_between a b.
Proof.
  unfold whole_seconds_between.
  pose proof (dt_sub_total b a) as Htotal.
  destruct (dt_sub_range b a) as [_ Hm].
  apply (Z.div_unique_pos _ _ _ (microseconds (dt_sub b a))); lia.
Qed.

Section ReportEdge.
Context {F : Type} `{FloatOps F}.
Variable C : collaborators.
Variable ctx : context C.
Variables period_start period_stop : datetime.
Variable detailed : bool.

Ltac run_M :=
  unfold mbind, M_bind, mret, M_ret, lift, raise, outcome_bind, outcome_ret
    in *; simpl in *.

#[local] Arguments ts_sub : simpl never.

#[local] Abbreviation stamped_rval :=
  (stamped C ctx period_start period_stop).

(** A step that returns, in full: it skipped the instance, or it read the
    clock once and added the instance's [info] to its tenant's summary. *)
Lemma usage_step_entry (rval rval' : gmap string (Summary.t F))
    (cache cache' : gmap Z Flavor.t) (inst : instance) (w w' : world) :
  cache_sound C ctx cache ->
  usage_step C ctx period_start period_stop detailed (rval, cache) inst w
  = (Returns (rval', cache'), w') ->
  match resolves C ctx inst with
  | None => rval' = rval /\ w' = w
  | Some fl =>
      exists h delta summary,
        _hours_for C inst period_start period_stop = Returns h
        /\ (if String.eqb (entry_state inst) "terminated"
            then ts_sub (terminated_at inst) (launched_at inst)
            else ts_sub (TDatetime (utcnow_at C (clock_reads w)))
                        (launched_at inst))
           = Returns delta
        /\ accumulate detailed
             (summary_of period_start period_stop detailed rval
                         (project_id inst))
             (entry_of inst h fl delta)
           = Returns summary
        /\ rval' = <[project_id inst := summary]> rval
        /\ w' = tick w
  end.
Proof.
  intros Hsound. unfold usage_step. run_M.
  destruct (_hours_for C inst period_start period_stop) as [h|e] eqn:Hh;
    [|discriminate].
  destruct (_get_flavor C ctx inst cache) as [[o cache1]|e] eqn:Hfl;
    [|discriminate].
  destruct (get_flavor_resolves C ctx _ _ _ _ Hsound Hfl) as [-> _].
  destruct (resolves C ctx inst) as [fl|] eqn:Hres.
  2:{ intros [= <- <- <-]. auto. }
  fold (entry_state inst).
  destruct (if String.eqb (entry_state inst) "terminated" then _ else _)
    as [delta|e] eqn:Hdelta; [|discriminate].
  unfold summary_of.
  destruct (rval !! project_id inst) as [s0|] eqn:Hlk.
  - rewrite Hlk.
    match goal with
    | |- context [accumulate ?d ?s ?i] =>
        destruct (accumulate d s i) as [s1|e] eqn:Hacc
    end; [|discriminate].
    intros [= <- <- <-]. exists h, delta, s1. auto.
  - rewrite lookup_insert_eq.
    match goal with
    | |- context [accumulate ?d ?s ?i] =>
        destruct (accumulate d s i) as [s1|e] eqn:Hacc
    end; [|discriminate].
    intros [= <- <- <-]. exists h, delta, s1.
    rewrite insert_insert_eq. auto.
Qed.

(** A property of [rval] that every returning step keeps holds at the end of
    the loop. *)
Lemma for_each_invariant
    (I : list instance -> gmap string (Summary.t F) -> Prop) :
  (forall processed inst rval rval' cache cache' w w',
     cache_sound C ctx cache -> I processed rval ->
     usage_step C ctx period_start period_stop detailed (rval, cache) inst w
     = (Returns (rval', cache'), w') ->
     I (processed ++ [inst]) rval') ->
  forall l processed (st st' : loop_state) w w',
    cache_sound C ctx st.2 -> I processed st.1 ->
    for_each (usage_step C ctx period_start period_stop detailed) l st w
    = (Returns st', w') ->
    I (processed ++ l) st'.1.
Proof.
  intros Hstep l.
  induction l as [|inst l IH]; intros processed st st' w w' Hsound HI; simpl.
  - run_M. intros [= <- <-]. rewrite app_nil_r. exact HI.
  - run_M. destruct st as [rval cache].
    destruct (usage_step C ctx period_start period_stop detailed
                (rval, cache) inst w) as [[[rval1 cache1]|e] w1] eqn:Hs;
      [|intros [=]].
    intros Hrest.
    rewrite (app_assoc processed [inst] l : processed ++ inst :: l = _).
    apply (IH _ (rval1, cache1) st' w1 w'); [|eapply Hstep; eassumption|
                                              exact Hrest].
    apply (usage_step_returns C ctx period_start period_stop detailed
             _ _ _ _ _ _ _ Hsound Hs).
Qed.

(** What [accumulate] keeps and what it adds. *)
Lemma accumulate_fields (s s' : Summary.t F) (info : Info.t F) :
  accumulate detailed s info = Returns s' ->
  Summary.tenant_id s' = Summary.tenant_id s
  /\ Summary.start s' = Summary.start s
  /\ Summary.stop s' = Summary.stop s
  /\ (forall l', Summary.server_usages s' = Some l' ->
        exists l, Summary.server_usages s = Some l
                  /\ (l' = l ++ [info] \/ l' = l)).
Proof.
  unfold accumulate. run_M.
  destruct detailed.
  - destruct (Summary.server_usages s) as [l|]; [|discriminate].
    intros [= <-]. simpl. repeat split; try reflexivity.
    intros l' [= <-]. eauto.
  - intros [= <-]. simpl. repeat split; try reflexivity.
    intros l' Hl'. eauto.
Qed.

Lemma stamped_step (processed : list instance) (inst : instance)
    (rval rval' : gmap string (Summary.t F)) (cache cache' : gmap Z Flavor.t)
    (w w' : world) :
  cache_sound C ctx cache -> stamped_rval processed rval ->
  usage_step C ctx period_start period_stop detailed (rval, cache) inst w
  = (Returns (rval', cache'), w') ->
  stamped_rval (processed ++ [inst]) rval'.
Proof.
  intros Hsound Hst Hstep.
  assert (Hweak : forall t s, rval !! t = Some s ->
            Summary.tenant_id s = t
            /\ Summary.start s = period_start
            /\ Summary.stop s = period_stop
            /\ exists i, i ∈ processed ++ [inst] /\ project_id i = t
                         /\ is_Some (resolves C ctx i)).
  { intros t s Hlk. destruct (Hst t s Hlk) as (? & ? & ? & i & Hi & ?).
    repeat split; try assumption. exists i. split; [|assumption].
    apply elem_of_app. auto. }
  pose proof (usage_step_entry _ _ _ _ _ _ _ Hsound Hstep) as Hcase.
  destruct (resolves C ctx inst) as [fl|] eqn:Hres.
  2:{ destruct Hcase as [-> _]. exact Hweak. }
  destruct Hcase as (h & delta & summary & _ & _ & Hacc & -> & _).
  intros t s. destruct (decide (t = project_id inst)) as [->|Hne].
  - rewrite lookup_insert_eq. intros [= <-].
    destruct (accumulate_fields _ _ _ Hacc) as (Ht & Hs & He & _).
    rewrite Ht, Hs, He. unfold summary_of.
    assert (Hin : exists i, i ∈ processed ++ [inst]
                            /\ project_id i = project_id inst
                            /\ is_Some (resolves C ctx i)).
    { exists inst. split; [apply elem_of_app; right; apply list_elem_of_singleton;
                           reflexivity|]. rewrite Hres. eauto. }
    destruct (rval !! project_id inst) as [s0|] eqn:Hlk.
    + destruct (Hst _ _ Hlk) as (? & ? & ? & _). auto.
    + simpl. auto.
  - rewrite lookup_insert_ne by congruence. apply Hweak.
Qed.

Lemma usages_stamped (instances : list instance)
    (summaries : list (Summary.t F)) (w w' : world) :
  usages_of_instances C ctx period_start period_stop detailed instances w
  = (Returns summaries, w') ->
  forall s, s ∈ summaries ->
    Summary.start s = period_start
    /\ Summary.stop s = period_stop
    /\ exists i, i ∈ instances /\ project_id i = Summary.tenant_id s
                 /\ is_Some (resolves C ctx i).
Proof.
  intros Hrun s Hin.
  destruct (usages_of_instances_returned C ctx _ _ _ _ _ _ _ Hrun)
    as (st & Hloop & ->).
  apply elem_of_values in Hin as [t Hlk].
  assert (Hst : stamped_rval ([] ++ instances) st.1).
  { eapply (for_each_invariant stamped_rval stamped_step _ []
              ((∅, ∅) : loop_state) st);
      [apply cache_sound_empty| |exact Hloop].
    intros t0 s0 Hlk0. simpl in Hlk0. rewrite lookup_empty in Hlk0.
    discriminate. }
  destruct (Hst t s Hlk) as (Ht & Hs & He & i & Hi & Hp & Hr).
  repeat split; try assumption. exists i. rewrite Ht. auto.
Qed.

(** X6.  Every summary of a returned report carries the window the
    aggregator was given as [start] and [stop], and belongs to a tenant with
    at least one instance of the lookup result whose flavor resolved: no
    summary is made for a tenant without billed instances. *)
Theorem summaries_stamped (tenant_id : option string)
    (summaries : list (Summary.t F)) (w w' : world) :
  _tenant_usages_for_period C ctx period_start period_stop tenant_id detailed w
  = (Returns summaries, w') ->
  forall s, s ∈ summaries ->
    Summary.start s = period_start
    /\ Summary.stop s = period_stop
    /\ exists i,
         i ∈ get_active_by_window C ctx period_start period_stop tenant_id
         /\ project_id i = Summary.tenant_id s
         /\ is_Some (resolves C ctx i).
Proof.
  unfold _tenant_usages_for_period, active_by_window.
  unfold mbind at 1, M_bind at 1. intros Hrun. exact (usages_stamped _ _ _ _ Hrun).
Qed.

(** The [info] of a step that returned is a well-formed entry. *)
Lemma entry_of_ok (inst : instance) (h : pynum F) (fl : Flavor.t)
    (delta : timedelta) (now : nat) :
  (if String.eqb (entry_state inst) "terminated"
   then ts_sub (terminated_at inst) (launched_at inst)
   else ts_sub (TDatetime (utcnow_at C now)) (launched_at inst))
  = Returns delta ->
  entry_ok C (entry_of inst h fl delta).
Proof.
  unfold entry_ok, entry_of; simpl.
  destruct (String.eqb_spec (entry_state inst) "terminated") as [Hst|Hst].
  - unfold ts_sub.
    destruct (terminated_at inst) as [|ended|x] eqn:He; try discriminate.
    destruct (launched_at inst) as [|started|x] eqn:Hl; try discriminate.
    intros [= <-]. exists started. split; [reflexivity|]. split.
    + intros _. exists ended. split; [reflexivity|].
      apply dt_sub_whole_seconds.
    + intros Hne. destruct (Hne Hst).
  - unfold ts_sub.
    destruct (launched_at inst) as [|started|x] eqn:Hl; try discriminate.
    intros [= <-]. exists started. split; [reflexivity|]. split.
    + intros Heq. destruct (Hst Heq).
    + intros _. split.
      * unfold entry_state in Hst.
        destruct (truthy (terminated_at inst)); [destruct (Hst eq_refl)|].
        reflexivity.
      * exists now. apply dt_sub_whole_seconds.
Qed.

Lemma entries_ok_step (processed : list instance) (inst : instance)
    (rval rval' : gmap string (Summary.t F)) (cache cache' : gmap Z Flavor.t)
    (w w' : world) :
  cache_sound C ctx cache -> entries_ok C rval ->
  usage_step C ctx period_start period_stop detailed (rval, cache) inst w
  = (Returns (rval', cache'), w') ->
  entries_ok C rval'.
Proof.
  intros Hsound Hok Hstep.
  pose proof (usage_step_entry _ _ _ _ _ _ _ Hsound Hstep) as Hcase.
  destruct (resolves C ctx inst) as [fl|] eqn:Hres.
  2:{ destruct Hcase as [-> _]. exact Hok. }
  destruct Hcase as (h & delta & summary & _ & Hdelta & Hacc & -> & _).
  intros t s l. destruct (decide (t = project_id inst)) as [->|Hne].
  - rewrite lookup_insert_eq. intros [= <-] Hl.
    destruct (accumulate_fields _ _ _ Hacc) as (_ & _ & _ & Hlist).
    destruct (Hlist l Hl) as (l0 & Hl0 & Hcases).
    assert (Hold : Forall (entry_ok C) l0).
    { unfold summary_of in Hl0.
      destruct (rval !! project_id inst) as [s0|] eqn:Hlk.
      - apply (Hok _ _ _ Hlk Hl0).
      - simpl in Hl0. destruct detailed; [|discriminate].
        injection Hl0 as <-. constructor. }
    destruct Hcases as [-> | ->]; [|exact Hold].
    apply Forall_app. split; [exact Hold|].
    constructor; [|constructor]. apply (entry_of_ok _ _ _ _ _ Hdelta).
  - rewrite lookup_insert_ne by congruence. apply Hok.
Qed.

(** X7.  Every entry of a returned detailed report has a [datetime] as
    [started_at].  An entry in state [terminated] has a [datetime] as
    [ended_at] and its uptime is the whole seconds from launch to end; any
    other entry has no end time and its uptime is the whole seconds from
    launch to a reading of the clock.  Fractions of a second are dropped. *)
Theorem entries_well_formed (tenant_id : option string)
    (summaries : list (Summary.t F)) (w w' : world) :
  _tenant_usages_for_period C ctx period_start period_stop tenant_id detailed w
  = (Returns summaries, w') ->
  forall s l, s ∈ summaries -> Summary.server_usages s = Some l ->
    Forall (entry_ok C) l.
Proof.
  unfold _tenant_usages_for_period, active_by_window.
  unfold mbind at 1, M_bind at 1. intros Hrun s l Hin Hl.
  destruct (usages_of_instances_returned C ctx _ _ _ _ _ _ _ Hrun)
    as (st & Hloop & ->).
  apply elem_of_values in Hin as [t Hlk].
  assert (Hok : entries_ok C st.1).
  { eapply (for_each_invariant (fun _ => entries_ok C)
              entries_ok_step _ [] ((∅, ∅) : loop_state) st);
      [apply cache_sound_empty| |exact Hloop].
    intros t0 s0 l0 Hlk0. simpl in Hlk0. rewrite lookup_empty in Hlk0.
    discriminate. }
  apply (Hok t s l Hlk Hl).
Qed.

End ReportEdge.

End ReportEdgeFacts.

(** ** Requests: parsing, refusal and the single lookup *)

Module RequestEdgeFacts.
Import SimpleTenantUsageController Report Entries AggregatorFacts.
Import HandlerFacts AggregatorEdgeFacts ReportEdgeFacts.

Section RequestEdge.
Context {F : Type} `{FloatOps F}.
Variable C : collaborators.

Ltac run_M :=
  unfold mbind, M_bind, mret, M_ret, lift, raise, check, outcome_bind,
    outcome_ret in *; simpl in *.

#[local] Arguments _get_datetime_range : simpl never.
#[local] Arguments _tenant_usages_for_period : simpl never.

(** The query string of a request, as [parse_qs] reads it. *)
#[local] Abbreviation env_of req :=
  (parse_qs C (match QUERY_STRING req with
               | Some q => q
               | None => EmptyString
               end)).

(** The first layout that reads the text gives the result. *)
Lemma try_formats_first (dtstr : string) (formats : list string) :
  match try_formats C dtstr formats with
  | Some t =>
      exists before format after,
        formats = before ++ format :: after
        /\ Forall (fun f => parse_strtime C dtstr f = None) before
        /\ parse_strtime C dtstr format = Some t
  | None => Forall (fun f => parse_strtime C dtstr f = None) formats
  end.
Proof.
  induction formats as [|format rest IH]; simpl; [constructor|].
  destruct (parse_strtime C dtstr format) as [t|] eqn:Hp.
  - exists [], format, rest. split; [reflexivity|]. split; [constructor|exact Hp].
  - destruct (try_formats C dtstr rest) as [t|].
    + destruct IH as (before & fmt & after & -> & Hnone & Hsome).
      exists (format :: before), fmt, after.
      split; [reflexivity|]. split; [constructor; assumption|exact Hsome].
    + constructor; assumption.
Qed.

Lemma try_formats_none (dtstr : string) (formats : list string) :
  Forall (fun f => parse_strtime C dtstr f = None) formats ->
  try_formats C dtstr formats = None.
Proof.
  induction 1 as [|format rest Hhd _ IH]; simpl; [reflexivity|].
  rewrite Hhd. exact IH.
Qed.

(** X8.  A non-empty text is tried against the layouts of
    [VALID_DATETIME_FORMAT] in order and the first that reads it gives the
    timestamp; when none reads it the result is [None]; the clock is not
    read in either case. *)
Theorem parse_datetime_text (s : string) (w : world) :
  s <> EmptyString ->
  exists o,
    _parse_datetime C (TStr s) w = (Returns o, w)
    /\ match o with
       | Some t =>
           exists before format after,
             VALID_DATETIME_FORMAT = before ++ format :: after
             /\ Forall (fun f => parse_strtime C s f = None) before
             /\ parse_strtime C s format = Some t
       | None =>
           Forall (fun f => parse_strtime C s f = None) VALID_DATETIME_FORMAT
       end.
Proof.
  intros Hne. exists (try_formats C s VALID_DATETIME_FORMAT). split.
  - unfold _parse_datetime, truthy.
    destruct (String.eqb_spec s EmptyString) as [Heq|_]; [destruct (Hne Heq)|].
    reflexivity.
  - apply try_formats_first.
Qed.

(** An absent or empty value stands for the current time. *)
Lemma parse_datetime_absent (w : world) :
  _parse_datetime C TNone w
  = (Returns (Some (utcnow_at C (clock_reads w))), tick w).
Proof. reflexivity. Qed.

(** X9.  A range that is returned is ordered, start strictly before stop;
    producing it makes no instance lookup; and [detailed] is true exactly
    when the first value of the query key [detailed] is the text [1]. *)
Theorem datetime_range_ordered (req : request C) (w w' : world)
    (period_start period_stop : datetime) (detailed : bool) :
  _get_datetime_range C req w
  = (Returns (period_start, period_stop, detailed), w') ->
  period_start < period_stop
  /\ lookups w' = lookups w
  /\ (detailed = true
      <-> exists rest, env_of req !! "detailed"%string = Some ("1"%string :: rest)).
Proof.
  intros Hrange.
  pose proof (get_datetime_range_lookups C req w) as Hl.
  rewrite Hrange in Hl. simpl in Hl.
  revert Hrange. unfold _get_datetime_range. run_M.
  destruct (query_value _ "start" TNone) as [sv|e]; [|discriminate].
  destruct (_parse_datetime C sv w) as [[[ps|]|e] w1]; try discriminate.
  destruct (query_value _ "end" TNone) as [ev|e]; [|discriminate].
  destruct (_parse_datetime C ev w1) as [[[pe|]|e] w2]; try discriminate.
  destruct (Z.ltb_spec ps pe) as [Hlt|Hge]; simpl; [|discriminate].
  unfold query_value.
  destruct (env_of req !! "detailed"%string) as [[|v rest]|] eqn:Hd;
    try discriminate.
  - intros [= <- <- <- <-]. split; [exact Hlt|]. split; [exact Hl|].
    split.
    + intros Heq. apply String.eqb_eq in Heq. subst v. eauto.
    + intros (rest' & [= -> _]). reflexivity.
  - intros [= <- <- <- <-]. split; [exact Hlt|]. split; [exact Hl|].
    split; [discriminate|]. intros (rest & [=]).
Qed.

(** X10.  A request that names neither [start] nor [end] (nor [detailed])
    takes two successive readings of the clock as its window: it yields that
    window, not detailed, when the clock advanced between them, and is
    rejected with "start after end" when it did not. *)
Theorem range_without_parameters (req : request C) (w : world) :
  env_of req !! "start"%string = None ->
  env_of req !! "end"%string = None ->
  env_of req !! "detailed"%string = None ->
  let now0 := utcnow_at C (clock_reads w) in
  let now1 := utcnow_at C (S (clock_reads w)) in
  _get_datetime_range C req w
  = (if now0 <? now1 then Returns (now0, now1, false)
     else Raises (HTTPBadRequest StartAfterEnd),
     tick (tick w)).
Proof.
  intros Hs He Hd now0 now1.
  unfold _get_datetime_range, query_value. rewrite Hs, He, Hd. run_M.
  fold now0 now1. destruct (now0 <? now1); reflexivity.
Qed.

(** X11.  A caller whom the policy refuses gets [Forbidden] from both
    handlers before anything else happens: the clock is not read and no
    instance is looked up. *)
Theorem unauthorized_forbidden (req : request C) (id : string) (w : world) :
  (authorize_list C (nova_context req) = false ->
   index (F := F) C req w = (Raises Forbidden, w))
  /\ (authorize_show C (nova_context req) id = false ->
      show (F := F) C req id w = (Raises Forbidden, w)).
Proof.
  split; intros Hauth.
  - unfold index. run_M. rewrite Hauth. reflexivity.
  - unfold show. run_M. rewrite Hauth. reflexivity.
Qed.

(** The window a handler passes on is never later than the clock. *)
Lemma clipped_stop (period_stop now : datetime) :
  (if period_stop >? now then now else period_stop) <= now.
Proof. destruct (Z.gtb_spec period_stop now); lia. Qed.

Lemma index_lookups (req : request C) (w : world) :
  lookups (index (F := F) C req w).2 = lookups w
  \/ exists period_start period_stop n,
       lookups (index (F := F) C req w).2
       = lookups w ++ [(period_start, period_stop, None)]
       /\ period_stop <= utcnow_at C n.
Proof.
  destruct (authorize_list C (nova_context req)) eqn:Hauth.
  2:{ left. unfold index. run_M. rewrite Hauth. reflexivity. }
  rewrite (index_authorized C req w Hauth).
  pose proof (get_datetime_range_lookups C req w) as Hl.
  destruct (_get_datetime_range C req w) as [[[[ps pe] d]|e] w1];
    simpl in Hl; [|left; exact Hl].
  right. cbv zeta. eexists ps, _, (clock_reads w1).
  rewrite tenant_usages_lookups. simpl. rewrite Hl.
  split; [reflexivity|apply clipped_stop].
Qed.

Lemma show_lookups (req : request C) (id : string) (w : world) :
  lookups (show (F := F) C req id w).2 = lookups w
  \/ exists period_start period_stop n,
       lookups (show (F := F) C req id w).2
       = lookups w ++ [(period_start, period_stop, Some id)]
       /\ period_stop <= utcnow_at C n.
Proof.
  destruct (authorize_show C (nova_context req) id) eqn:Hauth.
  2:{ left. unfold show. run_M. rewrite Hauth. reflexivity. }
  rewrite (show_authorized C req id w Hauth).
  pose proof (get_datetime_range_lookups C req w) as Hl.
  destruct (_get_datetime_range C req w) as [[[[ps pe] d]|e] w1];
    simpl in Hl; [|left; exact Hl].
  right. cbv zeta. eexists ps, _, (clock_reads w1).
  match goal with
  | |- context [_tenant_usages_for_period C ?c ?a ?b ?t ?dd ?ww] =>
      pose proof (tenant_usages_lookups C c a b t dd ww) as Hlk;
      destruct (_tenant_usages_for_period C c a b t dd ww) as [r w2]
  end.
  simpl in *. rewrite Hlk, Hl. split; [reflexivity|apply clipped_stop].
Qed.

(** X12.  Whatever the request and however it ends, a handler looks
    instances up at most once, and the window of that lookup never stops
    after a reading of the clock: [index] asks for all tenants, [show] for
    the tenant it was given. *)
Theorem handlers_look_up_once (req : request C) (id : string) (w : world) :
  (lookups (index (F := F) C req w).2 = lookups w
   \/ exists period_start period_stop n,
        lookups (index (F := F) C req w).2
        = lookups w ++ [(period_start, period_stop, None)]
        /\ period_stop <= utcnow_at C n)
  /\ (lookups (show (F := F) C req id w).2 = lookups w
      \/ exists period_start period_stop n,
           lookups (show (F := F) C req id w).2
           = lookups w ++ [(period_start, period_stop, Some id)]
           /\ period_stop <= utcnow_at C n).
Proof. split; [apply index_lookups|apply show_lookups]. Qed.

(** X13.  When the lookup honours the tenant filter, what [show] returns is
    the requested tenant's own summary: it carries that tenant's id and the
    window that was looked up, and agrees with the tenant's billed instances;
    the empty usage is returned only if no instance found has a flavor. *)
Theorem show_requested_tenant (req : request C) (id : string) (w w1 w' : world)
    (period_start period_stop : datetime) (ignore : bool)
    (r : option (Summary.t F)) :
  authorize_show C (nova_context req) id = true ->
  _get_datetime_range C req w
  = (Returns (period_start, period_stop, ignore), w1) ->
  let now := utcnow_at C (clock_reads w1) in
  let stop := if period_stop >? now then now else period_stop in
  let instances :=
    get_active_by_window C (nova_context req) period_start stop (Some id) in
  (forall i, i ∈ instances -> project_id i = id) ->
  show (F := F) C req id w = (Returns r, w') ->
  match r with
  | Some u =>
      Summary.start u = period_start
      /\ Summary.stop u = stop
      /\ summary_ok C (nova_context req) period_start stop true id instances u
  | None =>
      forall i, i ∈ instances -> resolves C (nova_context req) i = None
  end.
Proof.
  intros Hauth Hrange now stop instances Hfilter.
  rewrite (show_authorized C req id w Hauth), Hrange. cbv zeta.
  fold now. fold stop.
  unfold _tenant_usages_for_period, active_by_window.
  unfold mbind at 1, M_bind at 1. fold instances.
  destruct (usages_of_instances C (nova_context req) period_start stop true
              instances _) as [[summaries|e] w2] eqn:Hrun; [|discriminate].
  destruct (usages_of_instances_ok C _ _ _ _ _ _ _ _ Hrun)
    as (Hsum & Hall & _).
  pose proof (usages_stamped C _ _ _ _ _ _ _ _ Hrun) as Hst.
  destruct summaries as [|u rest]; intros [= <- <-].
  - intros i Hi. destruct (resolves C (nova_context req) i) eqn:Hres;
      [|reflexivity].
    destruct (Hall i Hi (ex_intro _ _ Hres)) as (s & Hin & _).
    inversion Hin.
  - assert (Hin : u ∈ u :: rest) by (constructor).
    destruct (Hst u Hin) as (Hs & He & i & Hi & Hp & _).
    split; [exact Hs|]. split; [exact He|].
    rewrite <- (Hfilter i Hi), Hp. apply (Hsum u Hin).
Qed.

(** A query value is parsed without raising. *)
Lemma parse_datetime_query (v : pyts) (w : world) :
  (forall t, v <> TDatetime t) ->
  exists o w', _parse_datetime C v w = (Returns o, w').
Proof.
  intros Hv. unfold _parse_datetime.
  destruct v as [|t|s]; simpl.
  - eauto.
  - destruct (Hv t eq_refl).
  - destruct (negb (String.eqb s EmptyString)); simpl; eauto.
Qed.

Lemma query_value_text (env : gmap string (list string)) (key : string)
    (default : pyts) :
  env !! key <> Some [] ->
  (forall t, default <> TDatetime t) ->
  exists v, query_value env key default = Returns v
            /\ forall t, v <> TDatetime t.
Proof.
  intros Hne Hd. unfold query_value.
  destruct (env !! key) as [[|v rest]|].
  - destruct (Hne eq_refl).
  - eexists. split; [reflexivity|discriminate].
  - eauto.
Qed.

(** X14.  When no query key has an empty list of values (as [parse_qs]
    guarantees), reading the range either returns a window or raises a
    bad-request error, nothing else. *)
Theorem datetime_range_only_bad_request (req : request C) (w : world) :
  env_of req !! "start"%string <> Some [] ->
  env_of req !! "end"%string <> Some [] ->
  env_of req !! "detailed"%string <> Some [] ->
  exists w',
    (exists window, _get_datetime_range C req w = (Returns window, w'))
    \/ (exists why,
          _get_datetime_range C req w = (Raises (HTTPBadRequest why), w')).
Proof.
  intros Hs He Hd. unfold _get_datetime_range. run_M.
  destruct (query_value_text _ "start" TNone Hs ltac:(discriminate))
    as (sv & -> & Hsv).
  destruct (parse_datetime_query sv w Hsv) as (ps & w1 & ->).
  destruct ps as [ps|]; [|eauto].
  destruct (query_value_text _ "end" TNone He ltac:(discriminate))
    as (ev & -> & Hev).
  destruct (parse_datetime_query ev w1 Hev) as (pe & w2 & ->).
  destruct pe as [pe|]; [|eauto].
  destruct (negb (ps <? pe)); simpl; [eauto|].
  destruct (query_value_text _ "detailed" (TStr "0") Hd ltac:(discriminate))
    as (dv & -> & _).
  eauto.
Qed.

(** X15.  A [start] text that no layout reads is reported as an invalid
    start format before [end] is looked at and without reading the clock; an
    [end] text that no layout reads, after a [start] that was read, is
    reported as an invalid stop format. *)
Theorem invalid_formats_reported (req : request C) (w : world)
    (s : string) (rest : list string) :
  s <> EmptyString ->
  Forall (fun f => parse_strtime C s f = None) VALID_DATETIME_FORMAT ->
  (env_of req !! "start"%string = Some (s :: rest) ->
   _get_datetime_range C req w
   = (Raises (HTTPBadRequest StartInvalidFormat), w))
  /\ (forall start_value period_start w1,
        query_value (env_of req) "start" TNone = Returns start_value ->
        _parse_datetime C start_value w = (Returns (Some period_start), w1) ->
        env_of req !! "end"%string = Some (s :: rest) ->
        _get_datetime_range C req w
        = (Raises (HTTPBadRequest StopInvalidFormat), w1)).
Proof.
  intros Hne Hnone.
  assert (Hparse : forall w0, _parse_datetime C (TStr s) w0
                              = (Returns None, w0)).
  { intros w0. unfold _parse_datetime, truthy.
    destruct (String.eqb_spec s EmptyString) as [Heq|_]; [destruct (Hne Heq)|].
    cbn [negb]. rewrite (try_formats_none s _ Hnone). reflexivity. }
  split.
  - intros Hs. unfold _get_datetime_range, query_value. rewrite Hs. run_M.
    rewrite Hparse. reflexivity.
  - intros sv ps w1 Hsv Hps He. unfold _get_datetime_range. run_M.
    rewrite Hsv, Hps. unfold query_value. rewrite He. rewrite Hparse.
    reflexivity.
Qed.

(** X16.  [index] returns detail lists exactly when the request asked for
    them: every summary has the key [server_usages] if [detailed] was read
    as true, and none has it otherwise. *)
Theorem index_detail_on_request (req : request C) (w w1 w' : world)
    (period_start period_stop : datetime) (detailed : bool)
    (summaries : list (Summary.t F)) :
  authorize_list C (nova_context req) = true ->
  _get_datetime_range C req w
  = (Returns (period_start, period_stop, detailed), w1) ->
  index (F := F) C req w = (Returns summaries, w') ->
  forall s, s ∈ summaries ->
    (is_Some (Summary.server_usages s) <-> detailed = true).
Proof.
  intros Hauth Hrange. rewrite (index_authorized C req w Hauth), Hrange.
  cbv zeta. unfold _tenant_usages_for_period, active_by_window.
  unfold mbind at 1, M_bind at 1. intros Hrun s Hin.
  destruct (usages_of_instances_ok C _ _ _ _ _ _ _ _ Hrun) as (Hsum & _).
  destruct (Hsum s Hin) as (_ & l & Hl & _). rewrite Hl.
  destruct detailed; split; try discriminate; eauto.
  intros [x [=]].
Qed.

(** X17.  With nothing found by the lookup, [index] returns the empty list
    of summaries after one reading of the clock and one lookup. *)
Theorem index_no_instances (req : request C) (w w1 : world)
    (period_start period_stop : datetime) (detailed : bool) :
  authorize_list C (nova_context req) = true ->
  _get_datetime_range C req w
  = (Returns (period_start, period_stop, detailed), w1) ->
  let now := utcnow_at C (clock_reads w1) in
  let stop := if period_stop >? now then now else period_stop in
  get_active_by_window C (nova_context req) period_start stop None = [] ->
  index (F := F) C req w
  = (Returns [], looked_up (tick w1) period_start stop None).
Proof.
  intros Hauth Hrange now stop Hnone.
  rewrite (index_authorized C req w Hauth), Hrange. cbv zeta. fold now.
  fold stop.
  unfold _tenant_usages_for_period, active_by_window, usages_of_instances.
  run_M. rewrite Hnone. simpl. unfold values. rewrite map_to_list_empty.
  reflexivity.
Qed.

End RequestEdge.

End RequestEdgeFacts.

(** ** The further properties on the concrete deployments *)

Module EdgeWitnesses.
Import SimpleTenantUsageController Report Entries Demo MoreDemo.
Import HoursEdgeFacts AggregatorEdgeFacts ReportEdgeFacts RequestEdgeFacts.
Import HoursFacts.

(** An instance that ran from the day before until noon of the third day covers
    the window from the first midnight to half a second past the second. *)
Lemma hours_for_spanning_witness :
  _hours_for (F := PrimFloat.float) D
    (server "long" "acme" (TDatetime (at_time 734868 0 0 0 0))
            (TDatetime (at_time 734871 12 0 0 0)) 2 false)
    jan1 (jan2 + 500000)
  = Returns (PFloat (fdiv (fadd (of_int (1 * 86400 + 0))
                                (fdiv (of_int 500000) (of_int 100000)))
                          (of_int 3600))).
Proof.
  apply (hours_for_spanning D _ jan1 (jan2 + 500000)
           (at_time 734868 0 0 0 0) (Some (at_time 734871 12 0 0 0))
           1 0 500000).
  - reflexivity.
  - reflexivity.
  - vm_compute. discriminate.
  - vm_compute. discriminate.
  - intros t [= <-]. vm_compute. discriminate.
  - reflexivity.
Defined.


(** Without embedded flavors the live instance [web] stops the report. *)
Lemma missing_flavor_aborts_witness :
  exists w1,
    usages_of_instances (F := PrimFloat.float) stripped tt jan1 jan2 true
      ([db] ++ web :: [batch]) w0
    = (Raises KeyError, w1).
Proof.
  destruct (usages_of_instances (F := PrimFloat.float) stripped tt jan1 jan2
              true [db] w0) as [[summaries|e] w1] eqn:Hpre.
  - exists w1.
    apply (missing_flavor_aborts stripped tt jan1 jan2 true [db] [batch] web
             summaries (PFloat 18%float) w0 w1 Hpre); reflexivity.
  - vm_compute in Hpre. discriminate Hpre.
Defined.

(** A launch time kept as text is billed by the calculator and stops the
    report. *)
Lemma launch_not_datetime_aborts_witness :
  exists w1,
    usages_of_instances (F := PrimFloat.float) textual tt jan1 jan2 true
      ([web] ++ texty :: []) w0
    = (Raises TypeError, tick w1).
Proof.
  destruct (usages_of_instances (F := PrimFloat.float) textual tt jan1 jan2
              true [web] w0) as [[summaries|e] w1] eqn:Hpre.
  - exists w1.
    apply (launch_not_datetime_aborts textual tt jan1 jan2 true [web] []
             texty summaries (PFloat 24%float) m1_small w0 w1 Hpre).
    + reflexivity.
    + reflexivity.
    + left. exists m1_small. reflexivity.
    + intros t [=].
  - vm_compute in Hpre. discriminate Hpre.
Defined.

(** The report of the first day: each summary carries the day. *)
Lemma summaries_stamped_witness :
  exists summaries w',
    _tenant_usages_for_period (F := PrimFloat.float) D tt jan1 jan2 None true w0
    = (Returns summaries, w')
    /\ forall s, s ∈ summaries ->
         Summary.start s = jan1 /\ Summary.stop s = jan2.
Proof.
  destruct (_tenant_usages_for_period (F := PrimFloat.float) D tt jan1 jan2
              None true w0) as [[summaries|e] w'] eqn:Hrun.
  - exists summaries, w'. split; [reflexivity|]. intros s Hin.
    destruct (summaries_stamped D tt jan1 jan2 true None summaries w0 w'
                Hrun s Hin) as (Hs & He & _).
    split; assumption.
  - vm_compute in Hrun. discriminate Hrun.
Defined.

(** The same report: every entry is well formed. *)
Lemma entries_well_formed_witness :
  exists summaries w',
    _tenant_usages_for_period (F := PrimFloat.float) D tt jan1 jan2 None true w0
    = (Returns summaries, w')
    /\ forall s l, s ∈ summaries -> Summary.server_usages s = Some l ->
         Forall (entry_ok D) l.
Proof.
  destruct (_tenant_usages_for_period (F := PrimFloat.float) D tt jan1 jan2
              None true w0) as [[summaries|e] w'] eqn:Hrun.
  - exists summaries, w'. split; [reflexivity|].
    exact (entries_well_formed D tt jan1 jan2 true None summaries w0 w' Hrun).
  - vm_compute in Hrun. discriminate Hrun.
Defined.

(** A text in the first layout. *)
Lemma parse_datetime_text_witness :
  exists o,
    _parse_datetime D (TStr "2013-01-01T00:00:00") w0 = (Returns o, w0)
    /\ match o with
       | Some t =>
           exists before format after,
             VALID_DATETIME_FORMAT = before ++ format :: after
             /\ Forall (fun f => parse_strtime D "2013-01-01T00:00:00" f = None)
                       before
             /\ parse_strtime D "2013-01-01T00:00:00" format = Some t
       | None =>
           Forall (fun f => parse_strtime D "2013-01-01T00:00:00" f = None)
                  VALID_DATETIME_FORMAT
       end.
Proof.
  apply (parse_datetime_text D "2013-01-01T00:00:00" w0). discriminate.
Defined.

(** The window of the day query. *)
Lemma datetime_range_ordered_witness :
  jan1 < jan2
  /\ lookups w0 = lookups w0
  /\ (false = true
      <-> exists rest,
            parse_qs D day_query !! "detailed"%string
            = Some ("1"%string :: rest)).
Proof.
  apply (datetime_range_ordered D (request_of D tt day_query) w0 w0 jan1 jan2
           false).
  reflexivity.
Defined.

(** No query string and a clock that ticks: a window of one microsecond. *)
Lemma range_without_parameters_witness :
  _get_datetime_range ticking (bare_request ticking tt) w0
  = (Returns (jan2, jan2 + 1, false), tick (tick w0)).
Proof.
  apply (range_without_parameters ticking (bare_request ticking tt) w0);
    reflexivity.
Defined.

(** Nobody is let in. *)
Lemma unauthorized_forbidden_witness :
  index (F := PrimFloat.float) closed (request_of closed tt day_query) w0
  = (Raises Forbidden, w0)
  /\ show (F := PrimFloat.float) closed (request_of closed tt day_query)
          "acme" w0
     = (Raises Forbidden, w0).
Proof.
  destruct (unauthorized_forbidden (F := PrimFloat.float) closed
              (request_of closed tt day_query) "acme" w0) as [Hindex Hshow].
  split; [apply Hindex|apply Hshow]; reflexivity.
Defined.

(** [show] for the tenant [acme] on the first day. *)
Lemma show_requested_tenant_witness :
  exists u w',
    show (F := PrimFloat.float) D (request_of D tt day_query) "acme" w0
    = (Returns (Some u), w')
    /\ Summary.tenant_id u = "acme"%string
    /\ Summary.start u = jan1
    /\ Summary.stop u = jan2.
Proof.
  destruct (show (F := PrimFloat.float) D (request_of D tt day_query) "acme"
              w0) as [[[u|]|e] w'] eqn:Hrun.
  - exists u, w'. split; [reflexivity|].
    pose proof (show_requested_tenant D (request_of D tt day_query) "acme"
                  w0 w0 w' jan1 jan2 false (Some u) eq_refl eq_refl)
      as Hshow.
    cbv zeta in Hshow.
    destruct Hshow as (Hs & He & Hten & _).
    + intros i Hi.
      change (i ∈ [web; batch; ghost]) in Hi.
      repeat (apply elem_of_cons in Hi as [->|Hi]; [reflexivity|]).
      inversion Hi.
    + exact Hrun.
    + split; [exact Hten|]. split; [exact Hs|exact He].
  - vm_compute in Hrun. discriminate Hrun.
  - vm_compute in Hrun. discriminate Hrun.
Defined.

(** The day query yields a window. *)
Lemma datetime_range_only_bad_request_witness :
  exists w',
    (exists window,
       _get_datetime_range D (request_of D tt day_query) w0
       = (Returns window, w'))
    \/ (exists why,
          _get_datetime_range D (request_of D tt day_query) w0
          = (Raises (HTTPBadRequest why), w')).
Proof.
  apply (datetime_range_only_bad_request D (request_of D tt day_query) w0);
    vm_compute; discriminate.
Defined.

(** [yesterday] is no timestamp. *)
Lemma invalid_formats_reported_witness :
  _get_datetime_range sloppy (bare_request sloppy tt) w0
  = (Raises (HTTPBadRequest StartInvalidFormat), w0).
Proof.
  destruct (invalid_formats_reported sloppy (bare_request sloppy tt) w0
              "yesterday" []) as [Hstart _].
  - discriminate.
  - repeat constructor.
  - apply Hstart. reflexivity.
Defined.

(** The day query does not ask for details. *)
Lemma index_detail_on_request_witness :
  exists summaries w',
    index (F := PrimFloat.float) D (request_of D tt day_query) w0
    = (Returns summaries, w')
    /\ forall s, s ∈ summaries ->
         (is_Some (Summary.server_usages s) <-> false = true).
Proof.
  destruct (index (F := PrimFloat.float) D (request_of D tt day_query) w0)
    as [[summaries|e] w'] eqn:Hrun.
  - exists summaries, w'. split; [reflexivity|].
    apply (index_detail_on_request D (request_of D tt day_query) w0 w0 w'
             jan1 jan2 false summaries eq_refl eq_refl Hrun).
  - vm_compute in Hrun. discriminate Hrun.
Defined.

(** A deployment without instances. *)
Lemma index_no_instances_witness :
  let E := deployment [] jan2 in
  index (F := PrimFloat.float) E (request_of E tt day_query) w0
  = (Returns [], looked_up (tick w0) jan1 jan2 None).
Proof.
  intros E.
  apply (index_no_instances (F := PrimFloat.float) E
           (request_of E tt day_query) w0 w0 jan1 jan2 false);
    reflexivity.
Defined.

End EdgeWitnesses.
